(** * Smart Study Buddy (app.py): a shallow embedding and its properties

    The development follows the layout of [app.py]:
    - [PyStr]: the string operations of the Python runtime that the
      handlers call ([str.strip], [str.find], [str.rfind], slicing,
      [str(int)], [int(str)], [', '.join]);
    - [PyFloat]: binary64 arithmetic as far as [view_schedule] uses it
      (true division of integers, multiplication, [round(x, 1)]);
    - [PyJson]: the values [json.loads] returns, with Python's [==];
    - [PyDate]: [datetime.strptime(s, "%Y-%m-%d")] and date ordinals;
    - the module globals of [app.py] as one record [Globals], threaded
      through every handler, and the handlers themselves.

    Conventions.  A Python [str] is a Rocq [string] whose characters are
    the code points below 256.  A Python [int] is a [Z].  A file written
    with [json.dump] holds the object it was dumped from; its content is
    kept in the state next to that object.  The write of the cache file
    stands inside the [try] of [get_answer]: it succeeds, or the [open]
    raises [OSError] and the file stays as it was, as
    [cache_file_writable] tells.  The write of the schedule file stands
    outside every [try] and is taken to succeed.
    The Gemini client and [json.loads] are parameters of the model.
    The clock is an input of the handlers that read it: the ordinal of
    the current day and its rendering by [strftime("%Y-%m-%d")].
    Not modelled: the debug output of [print], the routing and the
    templates of Flask. *)

From Stdlib Require Import ZArith List String Ascii Bool Lia DecimalString.
From Stdlib Require QArith.
From stdpp Require Import base gmap strings list.

Open Scope string_scope.
Open Scope list_scope.
Open Scope Z_scope.

(** ** Exceptions *)

Inductive exn :=
| ValueError
| ZeroDivisionError
| OverflowError
| AttributeError
| TypeError
| OSError
| GenerationError.

(** A computation that returns or raises. *)
Inductive exc (A : Type) :=
| Ret (a : A)
| Raise (e : exn).
Arguments Ret {A} a.
Arguments Raise {A} e.

Definition exc_bind {A B} (c : exc A) (k : A -> exc B) : exc B :=
  match c with
  | Ret a => k a
  | Raise e => Raise e
  end.

Notation "x <-! c ;; k" := (exc_bind c (fun x => k))
  (at level 100, c at next level, right associativity).

(** ** Python strings *)

Module PyStr.

Definition code (c : ascii) : Z := Z.of_N (N_of_ascii c).

(** [str.isspace] on the code points below 256. *)
Definition is_space (c : ascii) : bool :=
  let n := code c in
  ((9 <=? n) && (n <=? 13)) || ((28 <=? n) && (n <=? 32))
  || (n =? 133) || (n =? 160).

Definition is_digit (c : ascii) : bool :=
  let n := code c in (48 <=? n) && (n <=? 57).

Definition digit_val (c : ascii) : Z := code c - 48.

(** What [int(s)] skips around the literal: the ASCII blanks, and the
    blanks above 127. *)
Definition is_int_space (c : ascii) : bool :=
  let n := code c in
  ((9 <=? n) && (n <=? 13)) || (n =? 32) || (n =? 133) || (n =? 160).

Fixpoint lstrip_by (p : ascii -> bool) (s : string) : string :=
  match s with
  | EmptyString => EmptyString
  | String c s' => if p c then lstrip_by p s' else s
  end.

Fixpoint rstrip_by (p : ascii -> bool) (s : string) : string :=
  match s with
  | EmptyString => EmptyString
  | String c s' =>
      match rstrip_by p s' with
      | EmptyString => if p c then EmptyString else String c EmptyString
      | r => String c r
      end
  end.

(** [s.strip()] *)
Definition strip (s : string) : string := rstrip_by is_space (lstrip_by is_space s).

(** [s.find(c)] for a one-character needle: the first index, or -1. *)
Fixpoint find (c : ascii) (s : string) : Z :=
  match s with
  | EmptyString => -1
  | String d s' =>
      if Ascii.eqb c d then 0
      else let i := find c s' in if i =? -1 then -1 else i + 1
  end.

(** [s.rfind(c)]: the last index, or -1. *)
Fixpoint rfind (c : ascii) (s : string) : Z :=
  match s with
  | EmptyString => -1
  | String d s' =>
      let i := rfind c s' in
      if i =? -1 then (if Ascii.eqb c d then 0 else -1) else i + 1
  end.

(** [s[lo:hi]] for [0 <= lo] and [0 <= hi <= len(s)]. *)
Definition slice (s : string) (lo hi : Z) : string :=
  substring (Z.to_nat lo) (Z.to_nat (hi - lo)) s.

(** [str(n)] *)
Definition of_int (n : Z) : string := NilZero.string_of_int (Z.to_int n).

(** [sep.join(l)] *)
Fixpoint join (sep : string) (l : list string) : string :=
  match l with
  | [] => EmptyString
  | [x] => x
  | x :: l' => x +:+ sep +:+ join sep l'
  end.

(** The digits of a decimal literal after the sign: single underscores
    are allowed between digits only. *)
Fixpoint parse_digits (s : string) (acc : Z) (after_digit : bool) : option Z :=
  match s with
  | EmptyString => if after_digit then Some acc else None
  | String c s' =>
      if Ascii.eqb c "_"%char then
        if after_digit then parse_digits s' acc false else None
      else if is_digit c then parse_digits s' (10 * acc + digit_val c) true
      else None
  end.

(** The number of digits of a text, and the most digits [int] converts
    ([sys.int_info.default_max_str_digits]). *)
Fixpoint count_digits (s : string) : Z :=
  match s with
  | EmptyString => 0
  | String c s' => (if is_digit c then 1 else 0) + count_digits s'
  end.

Definition max_str_digits : Z := 4300.

(** [int(s)] for a [str] argument in base 10: surrounding whitespace is
    dropped, one sign is allowed, and a literal of more than
    [max_str_digits] digits (leading zeros counted, underscores not) is
    refused; every refusal is a [ValueError]. *)
Definition to_int (s : string) : exc Z :=
  let t := rstrip_by is_int_space (lstrip_by is_int_space s) in
  let r :=
    match t with
    | String "+"%char d => parse_digits d 0 false
    | String "-"%char d => option_map Z.opp (parse_digits d 0 false)
    | _ => parse_digits t 0 false
    end in
  match r with
  | Some n => if max_str_digits <? count_digits t then Raise ValueError else Ret n
  | None => Raise ValueError
  end.

(** The double quote character, and a text between double quotes. *)
Definition dq : string := String (ascii_of_nat 34) EmptyString.
Definition quoted (s : string) : string := dq +:+ s +:+ dq.

Definition nl : string := String (ascii_of_nat 10) EmptyString.

(** The lines of a multi-line literal, each closed by a newline. *)
Fixpoint unlines (l : list string) : string :=
  match l with
  | [] => EmptyString
  | x :: l' => x +:+ nl +:+ unlines l'
  end.

(** Truth value of a [str]. *)
Definition truthy (s : string) : bool :=
  match s with
  | EmptyString => false
  | _ => true
  end.

End PyStr.

(** ** Python floats (binary64) *)

Module PyFloat.

(** A float is [(-1)^neg * m * 2^e] with [0 <= m], an infinity, or the
    NaN.  The operations below return finite floats in the canonical
    form of binary64: [2^52 <= m < 2^53] and [-1074 <= e <= 971]
    (normal), or [m < 2^52] and [e = -1074] (subnormal and zero). *)
Inductive float :=
| Finite (neg : bool) (m e : Z)
| Inf (neg : bool)
| NaN.

Definition zero (neg : bool) : float := Finite neg 0 (-1074).

(** [shl x s] is [x * 2^s] for [0 <= s], and [x] otherwise. *)
Definition shl (x s : Z) : Z := x * 2 ^ Z.max s 0.

(** The integer nearest to [n / d], ties to even ([0 <= n], [0 < d]). *)
Definition rne_div (n d : Z) : Z :=
  let q := n / d in
  let r := n mod d in
  if 2 * r <? d then q
  else if d <? 2 * r then q + 1
  else if Z.even q then q else q + 1.

(** The binary64 nearest to [n / d] ([0 < n], [0 < d]) as mantissa and
    exponent; [None] when it is beyond the largest finite float. *)
Definition round_pos (n d : Z) : option (Z * Z) :=
  (* 2^k < n/d < 2^(k+2) *)
  let k := Z.log2 n - Z.log2 d - 1 in
  (* b = floor (log2 (n/d)) *)
  let b := if shl d (k + 1) <=? shl n (- (k + 1)) then k + 1 else k in
  let e := Z.max (b - 52) (-1074) in
  let m := rne_div (shl n (- e)) (shl d e) in
  let '(m, e) := if m =? 2 ^ 53 then (2 ^ 52, e + 1) else (m, e) in
  if 971 <? e then None else Some (m, e).

(** The float nearest to [(-1)^neg * n * 2^s]; overflow gives an infinity. *)
Definition of_scaled (neg : bool) (n s : Z) : float :=
  if n =? 0 then zero neg
  else match round_pos (shl n s) (shl 1 (- s)) with
       | Some (m, e) => Finite neg m e
       | None => Inf neg
       end.

(** [float(k)] *)
Definition of_int (k : Z) : exc float :=
  if k =? 0 then Ret (zero false)
  else match round_pos (Z.abs k) 1 with
       | Some (m, e) => Ret (Finite (k <? 0) m e)
       | None => Raise OverflowError
       end.

(** [a / b] on two [int]s: correctly rounded, [ZeroDivisionError] for a
    zero divisor, [OverflowError] when the quotient is too large. *)
Definition true_div (a b : Z) : exc float :=
  if b =? 0 then Raise ZeroDivisionError
  else
    let neg := xorb (a <? 0) (b <? 0) in
    if a =? 0 then Ret (zero neg)
    else match round_pos (Z.abs a) (Z.abs b) with
         | Some (m, e) => Ret (Finite neg m e)
         | None => Raise OverflowError
         end.

(** [x * y] on two floats. *)
Definition mul (x y : float) : float :=
  match x, y with
  | NaN, _ | _, NaN => NaN
  | Inf s, Inf t => Inf (xorb s t)
  | Inf s, Finite t m _ | Finite t m _, Inf s =>
      if m =? 0 then NaN else Inf (xorb s t)
  | Finite s m1 e1, Finite t m2 e2 =>
      of_scaled (xorb s t) (m1 * m2) (e1 + e2)
  end.

(** [x * k] for an [int] [k]: the integer is converted first. *)
Definition mul_int (x : float) (k : Z) : exc float :=
  y <-! of_int k ;; Ret (mul x y).

(** The signed mantissa. *)
Definition signed (neg : bool) (m : Z) : Z := if neg then - m else m.

(** [k < x] for an [int] [k] and a float [x] (an exact comparison). *)
Definition int_ltb (k : Z) (x : float) : bool :=
  match x with
  | NaN => false
  | Inf neg => negb neg
  | Finite neg m e => shl k (- e) <? shl (signed neg m) e
  end.

(** [x == y] on floats that are not the NaN. *)
Definition eqb (x y : float) : bool :=
  match x, y with
  | Finite s m1 e1, Finite t m2 e2 =>
      shl (signed s m1) (e1 - Z.min e1 e2) =? shl (signed t m2) (e2 - Z.min e1 e2)
  | Inf s, Inf t => Bool.eqb s t
  | _, _ => false
  end.

(** [k == x] for an [int] [k] and a float [x]. *)
Definition int_eqb (k : Z) (x : float) : bool :=
  match x with
  | Finite neg m e => shl k (- e) =? shl (signed neg m) e
  | _ => false
  end.

(** [round(x, 1)]: the decimal with one digit after the point nearest to
    [x] (ties to even on the exact value of [x]), converted back to the
    nearest float; infinities and the NaN round to themselves. *)
Definition round1 (x : float) : exc float :=
  match x with
  | Finite neg m e =>
      let t := rne_div (shl (10 * m) e) (shl 1 (- e)) in
      if t =? 0 then Ret (zero neg)
      else match round_pos t 10 with
           | Some (m', e') => Ret (Finite neg m' e')
           | None => Raise OverflowError
           end
  | _ => Ret x
  end.

(** Truth value of a float. *)
Definition truthy (x : float) : bool :=
  match x with
  | Finite _ m _ => negb (m =? 0)
  | _ => true
  end.

End PyFloat.

(** ** The values of [json.loads] *)

Module PyJson.

(** A [dict] is kept as its items in insertion order; its keys are
    pairwise distinct. *)
#[warnings="-register-all"]
Inductive json :=
| JNull
| JBool (b : bool)
| JInt (n : Z)
| JFloat (x : PyFloat.float)
| JStr (s : string)
| JArr (l : list json)
| JObj (items : list (string * json)).

(** [d.get(k)] on the items of a [dict]. *)
Fixpoint assoc {A} (k : string) (d : list (string * A)) : option A :=
  match d with
  | [] => None
  | (k', v) :: d' => if String.eqb k k' then Some v else assoc k d'
  end.

(** [k in d] *)
Definition has_key {A} (k : string) (d : list (string * A)) : bool :=
  match assoc k d with
  | Some _ => true
  | None => false
  end.

(** [bool] is a subclass of [int]: [True == 1], [False == 0]. *)
Definition as_int (v : json) : option Z :=
  match v with
  | JBool b => Some (if b then 1 else 0)
  | JInt n => Some n
  | _ => None
  end.

(** What [x in l] compares with: [x is y or x == y].  [json.loads]
    returns one and the same object for every [NaN] of the text, so the
    identity test makes two NaNs equal here. *)
Fixpoint py_eq (a b : json) {struct a} : bool :=
  match a, b with
  | JNull, JNull => true
  | JStr s, JStr t => String.eqb s t
  | JArr l1, JArr l2 =>
      (fix all2 (l1 l2 : list json) : bool :=
         match l1, l2 with
         | [], [] => true
         | x :: l1', y :: l2' => py_eq x y && all2 l1' l2'
         | _, _ => false
         end) l1 l2
  | JObj d1, JObj d2 =>
      (length d1 =? length d2)%nat
      && (fix sub (d : list (string * json)) : bool :=
            match d with
            | [] => true
            | (k, v) :: d' =>
                match assoc k d2 with
                | Some w => py_eq v w && sub d'
                | None => false
                end
            end) d1
  | JFloat PyFloat.NaN, JFloat PyFloat.NaN => true
  | JFloat x, JFloat y => PyFloat.eqb x y
  | JFloat x, (JBool _ | JInt _) =>
      match as_int b with
      | Some n => PyFloat.int_eqb n x
      | None => false
      end
  | (JBool _ | JInt _), JFloat y =>
      match as_int a with
      | Some n => PyFloat.int_eqb n y
      | None => false
      end
  | (JBool _ | JInt _), (JBool _ | JInt _) =>
      match as_int a, as_int b with
      | Some n, Some k => n =? k
      | _, _ => false
      end
  | _, _ => false
  end.

(** [x in l] *)
Definition py_in (x : json) (l : list json) : bool :=
  existsb (fun y => py_eq y x) l.

(** Truth value. *)
Definition truthy (v : json) : bool :=
  match v with
  | JNull => false
  | JBool b => b
  | JInt n => negb (n =? 0)
  | JFloat x => PyFloat.truthy x
  | JStr s => PyStr.truthy s
  | JArr l => match l with [] => false | _ => true end
  | JObj d => match d with [] => false | _ => true end
  end.

End PyJson.

(** ** Dates *)

Module PyDate.

Definition is_leap (y : Z) : bool :=
  ((y mod 4 =? 0) && negb (y mod 100 =? 0)) || (y mod 400 =? 0).

Definition days_in_month (y m : Z) : Z :=
  if m =? 2 then (if is_leap y then 29 else 28)
  else if (m =? 4) || (m =? 6) || (m =? 9) || (m =? 11) then 30
  else 31.

(** Days of the year [y] before the first of month [m] ([1 <= m <= 12]). *)
Definition days_before_month (y m : Z) : Z :=
  nth (Z.to_nat (m - 1)) [0; 31; 59; 90; 120; 151; 181; 212; 243; 273; 304; 334] 0
  + (if (2 <? m) && is_leap y then 1 else 0).

Definition days_before_year (y : Z) : Z :=
  (y - 1) * 365 + (y - 1) / 4 - (y - 1) / 100 + (y - 1) / 400.

(** [date(y, m, d).toordinal()]: 1 is 0001-01-01. *)
Definition ordinal (y m d : Z) : Z :=
  days_before_year y + days_before_month y m + d.

(** [datetime(y, m, d)]: the ordinal of a valid date, else [ValueError]. *)
Definition make_date (y m d : Z) : exc Z :=
  if (1 <=? y) && (y <=? 9999) && (1 <=? m) && (m <=? 12)
     && (1 <=? d) && (d <=? days_in_month y m)
  then Ret (ordinal y m d)
  else Raise ValueError.

Definition dig (c : ascii) : Z := PyStr.digit_val c.

(** The day field [3[0-1]|[1-2]\d|0[1-9]|[1-9]| [1-9]] followed by the end
    of the text. *)
Definition parse_day (s : string) : option Z :=
  match s with
  | String a (String b EmptyString) =>
      if PyStr.is_digit b then
        if Ascii.eqb a "3" then (if PyStr.code b <=? 49 then Some (30 + dig b) else None)
        else if Ascii.eqb a "1" || Ascii.eqb a "2" then Some (10 * dig a + dig b)
        else if (Ascii.eqb a "0" || Ascii.eqb a " ") && negb (Ascii.eqb b "0")
        then Some (dig b)
        else None
      else None
  | String a EmptyString =>
      if PyStr.is_digit a && negb (Ascii.eqb a "0") then Some (dig a) else None
  | _ => None
  end.

(** The month field [1[0-2]|0[1-9]|[1-9]] followed by a hyphen; returns
    the month and the text after the hyphen. *)
Definition parse_month (s : string) : option (Z * string) :=
  match s with
  | String a (String b r) =>
      if Ascii.eqb b "-" then
        if PyStr.is_digit a && negb (Ascii.eqb a "0") then Some (dig a, r) else None
      else
        match r with
        | String h r' =>
            if Ascii.eqb h "-" && PyStr.is_digit b then
              if Ascii.eqb a "1" && (PyStr.code b <=? 50) then Some (10 + dig b, r')
              else if Ascii.eqb a "0" && negb (Ascii.eqb b "0") then Some (dig b, r')
              else None
            else None
        | EmptyString => None
        end
  | _ => None
  end.

(** [datetime.strptime(s, "%Y-%m-%d")] as the ordinal of the parsed day:
    four digits, a hyphen, a month, a hyphen, a day, nothing else. *)
Definition strptime (s : string) : exc Z :=
  match s with
  | String y1 (String y2 (String y3 (String y4 (String h r)))) =>
      if PyStr.is_digit y1 && PyStr.is_digit y2 && PyStr.is_digit y3
         && PyStr.is_digit y4 && Ascii.eqb h "-" then
        match parse_month r with
        | Some (m, r') =>
            match parse_day r' with
            | Some d =>
                make_date (1000 * dig y1 + 100 * dig y2 + 10 * dig y3 + dig y4) m d
            | None => Raise ValueError
            end
        | None => Raise ValueError
        end
      else Raise ValueError
  | _ => Raise ValueError
  end.

(** The clock: [datetime.now()] as the ordinal of today, and the text
    [datetime.now().strftime("%Y-%m-%d")]. *)
Record clock := { today : Z; today_str : string }.

End PyDate.

(** ** Module data of [app.py] *)

Import PyJson.

(** [EXAM_PRESETS] *)
Record preset := {
  preset_name : string;
  preset_subjects : list string;
  duration_weeks : Z;
  description : string
}.

Definition EXAM_PRESETS : gmap string preset :=
  list_to_map [
    ("GATE",
     {| preset_name := "GATE (Graduate Aptitude Test in Engineering)";
        preset_subjects := ["Engineering Mathematics"; "General Aptitude";
                            "Technical Subject"; "Data Structures"; "Algorithms"];
        duration_weeks := 24;
        description := "Comprehensive preparation for GATE exam" |});
    ("JEE",
     {| preset_name := "JEE (Joint Entrance Examination)";
        preset_subjects := ["Physics"; "Chemistry"; "Mathematics"];
        duration_weeks := 52;
        description := "Complete JEE Main and Advanced preparation" |});
    ("NEET",
     {| preset_name := "NEET (National Eligibility cum Entrance Test)";
        preset_subjects := ["Physics"; "Chemistry"; "Biology (Botany)";
                            "Biology (Zoology)"];
        duration_weeks := 48;
        description := "Medical entrance exam preparation" |});
    ("CAT",
     {| preset_name := "CAT (Common Admission Test)";
        preset_subjects := ["Quantitative Ability"; "Verbal Ability";
                            "Data Interpretation"; "Logical Reasoning"];
        duration_weeks := 32;
        description := "MBA entrance exam preparation" |});
    ("UPSC",
     {| preset_name := "UPSC Civil Services";
        preset_subjects := ["History"; "Geography"; "Polity"; "Economy";
                            "Science & Technology"; "Current Affairs"];
        duration_weeks := 52;
        description := "Civil Services examination preparation" |});
    ("Custom",
     {| preset_name := "Custom Exam Preparation";
        preset_subjects := [];
        duration_weeks := 12;
        description := "Create your own study schedule" |})
  ].

(** [questions]: the pre-written answers, by subject and question. *)
Definition questions : gmap string (gmap string string) :=
  list_to_map [
    ("Math", list_to_map [
       ("What is 2+2?", "2+2 = 4");
       ("What is 10-3?", "10-3 = 7");
       ("What is correlation?",
        "Correlation measures the relationship between two variables.")]);
    ("Science", list_to_map [
       ("What is H2O?", "H2O is water");
       ("Which planet is nearest to the sun?", "Mercury");
       ("What is Ohm's law?",
        "Ohm's law states that V = IR, where V is voltage, I is current, and R is resistance.")]);
    ("English", list_to_map [
       ("Synonym of happy?", "Joyful");
       ("Antonym of fast?", "Slow")]);
    ("Electronics", list_to_map [
       ("What does LED stand for?", "Light Emitting Diode");
       ("What is the unit of electric current?", "Ampere")])
  ].

(** A number stored in a schedule: an [int] or a [float]. *)
Inductive pynum :=
| PInt (n : Z)
| PFloat (x : PyFloat.float).

(** A study schedule: the [dict] built by [create_schedule].  The keys
    ["ai_plan"], ["current_week"] and ["progress"] are absent until they
    are assigned. *)
Record schedule := {
  id : Z;
  name : string;
  exam_type : option string;
  subjects : list string;
  weeks : Z;
  hours_per_day : Z;
  created_date : string;
  start_date : string;
  status : string;
  ai_plan : option json;
  current_week : option Z;
  progress : option pynum
}.

(** [schedule["current_week"] = w] *)
Definition set_current_week (w : Z) (s : schedule) : schedule :=
  {| id := id s; name := name s; exam_type := exam_type s;
     subjects := subjects s; weeks := weeks s;
     hours_per_day := hours_per_day s; created_date := created_date s;
     start_date := start_date s; status := status s; ai_plan := ai_plan s;
     current_week := Some w; progress := progress s |}.

(** [schedule["progress"] = p] *)
Definition set_progress (p : pynum) (s : schedule) : schedule :=
  {| id := id s; name := name s; exam_type := exam_type s;
     subjects := subjects s; weeks := weeks s;
     hours_per_day := hours_per_day s; created_date := created_date s;
     start_date := start_date s; status := status s; ai_plan := ai_plan s;
     current_week := current_week s; progress := Some p |}.

(** [schedule["ai_plan"] = plan] *)
Definition set_ai_plan (plan : json) (s : schedule) : schedule :=
  {| id := id s; name := name s; exam_type := exam_type s;
     subjects := subjects s; weeks := weeks s;
     hours_per_day := hours_per_day s; created_date := created_date s;
     start_date := start_date s; status := status s; ai_plan := Some plan;
     current_week := current_week s; progress := progress s |}.

(** The mutable globals and the two files they are dumped to.  A file is
    [None] while it does not exist.  [cache_file_writable] tells whether
    [ai_cache.json] can be opened for writing: in [get_answer] the
    [open] stands inside the [try], so its failure is part of what the
    function does.  [gen_log] lists the prompts sent to the generation client so
    far, oldest first. *)
Record Globals := {
  ai_cache : gmap string string;
  ai_cache_json : option (gmap string string);
  cache_file_writable : bool;
  study_schedules : list schedule;
  study_schedules_json : option (list schedule);
  gen_log : list string
}.

Definition with_cache (c : gmap string string) (g : Globals) : Globals :=
  {| ai_cache := c; ai_cache_json := ai_cache_json g;
     cache_file_writable := cache_file_writable g;
     study_schedules := study_schedules g;
     study_schedules_json := study_schedules_json g; gen_log := gen_log g |}.

Definition with_schedules (l : list schedule) (g : Globals) : Globals :=
  {| ai_cache := ai_cache g; ai_cache_json := ai_cache_json g;
     cache_file_writable := cache_file_writable g;
     study_schedules := l;
     study_schedules_json := study_schedules_json g; gen_log := gen_log g |}.

(** [json.dump(ai_cache, open("ai_cache.json", "w"))] when it succeeds. *)
Definition dump_cache (g : Globals) : Globals :=
  {| ai_cache := ai_cache g; ai_cache_json := Some (ai_cache g);
     cache_file_writable := cache_file_writable g;
     study_schedules := study_schedules g;
     study_schedules_json := study_schedules_json g; gen_log := gen_log g |}.

(** [save_schedules()] *)
Definition save_schedules (g : Globals) : Globals :=
  {| ai_cache := ai_cache g; ai_cache_json := ai_cache_json g;
     cache_file_writable := cache_file_writable g;
     study_schedules := study_schedules g;
     study_schedules_json := Some (study_schedules g); gen_log := gen_log g |}.

(** The state at start-up: each global is loaded from its file when the
    file exists, and is empty otherwise. *)
Definition startup (cache_file : option (gmap string string))
    (schedules_file : option (list schedule)) (writable : bool) : Globals :=
  {| ai_cache := default ∅ cache_file; ai_cache_json := cache_file;
     cache_file_writable := writable;
     study_schedules := default [] schedules_file;
     study_schedules_json := schedules_file; gen_log := [] |}.

(** The generation client: [client.models.generate_content] answers a
    prompt, given the prompts it was sent before, with a response whose
    [text] is a [str] or [None], or it raises. *)
Definition gemini := list string -> string -> exc (option string).

Definition generate_content (c : gemini) (prompt : string) (g : Globals)
  : exc (option string) * Globals :=
  (c (gen_log g) prompt,
   {| ai_cache := ai_cache g; ai_cache_json := ai_cache_json g;
      cache_file_writable := cache_file_writable g;
      study_schedules := study_schedules g;
      study_schedules_json := study_schedules_json g;
      gen_log := gen_log g ++ [prompt] |}).

(** [response.text.strip()]: [None] has no [strip]. *)
Definition stripped_text (text : option string) : exc string :=
  match text with
  | Some t => Ret (PyStr.strip t)
  | None => Raise AttributeError
  end.

(** What a handler hands back to the framework. *)
Inductive reply :=
| RedirectToView (schedule_id : Z)
| RedirectToHome
| NotFound404
| RenderSchedule (s : schedule).

(** The fields of the form posted to [/study-schedule/create]; a field
    that was not posted is [None]. *)
Record form := {
  form_exam_type : option string;
  form_custom_name : option string;
  form_weeks : option string;
  form_hours_per_day : option string;
  form_subjects : list string;
  form_start_date : option string
}.

(** ** The handlers *)

Section App.

(** [client]: [None] when [GEMINI_API_KEY] is not set or is the
    placeholder of the sample [.env] file. *)
Variable client : option gemini.

(** [json.loads], raising [ValueError] on text that is not JSON. *)
Variable json_loads : string -> exc json.

Definition unavailable_message : string :=
  "AI features are currently unavailable. Please set your GEMINI_API_KEY in the .env file.".

Definition empty_answer_message : string :=
  "Sorry, AI could not generate an answer.".

Definition failure_message : string :=
  "Sorry, the answer could not be generated.".

(** [questions.get(sub, {}).get(question)] *)
Definition prewritten (sub question : string) : option string :=
  default ∅ (questions !! sub) !! question.

Definition answer_prompt (sub question : string) : string :=
  "Answer this question in simple terms for a student in " +:+ sub +:+ ": "
  +:+ question.

(** The body of the [try] of [get_answer]: it returns or raises, and in
    both cases leaves the globals as they are at that point.  The
    answer is put into the cache before the file is opened, so a write
    that fails ([OSError]) leaves the entry in memory and the file as it
    was. *)
Definition get_answer_try (c : gemini) (sub question : string) (g : Globals)
  : exc string * Globals :=
  let '(r, g1) := generate_content c (answer_prompt sub question) g in
  match r with
  | Raise e => (Raise e, g1)
  | Ret text =>
      match stripped_text text with
      | Raise e => (Raise e, g1)
      | Ret ans =>
          let g2 := with_cache (<[question := ans]> (ai_cache g1)) g1 in
          if cache_file_writable g2
          then (Ret (if PyStr.truthy ans then ans else empty_answer_message),
                dump_cache g2)
          else (Raise OSError, g2)
      end
  end.

(** Steps 2 and 3 of [get_answer]: the cache, then the client. *)
Definition cached_or_generated (c : gemini) (sub question : string) (g : Globals)
  : string * Globals :=
  match ai_cache g !! question with
  | Some cached => (cached, g)
  | None =>
      match get_answer_try c sub question g with
      | (Ret ans, g') => (ans, g')
      | (Raise _, g') => (failure_message, g')
      end
  end.

Definition get_answer (sub question : string) (g : Globals) : string * Globals :=
  match client with
  | None => (unavailable_message, g)
  | Some c =>
      match prewritten sub question with
      | Some ans =>
          if PyStr.truthy ans then (ans, g)
          else cached_or_generated c sub question g
      | None => cached_or_generated c sub question g
      end
  end.

(** *** Study plans *)

(** [str(x)] for an optional text: [None] prints as its name. *)
Definition str_of_option (x : option string) : string := default "None" x.

Definition study_plan_prompt (exam : option string) (subjects : list string)
    (weeks hours : Z) : string :=
  let q := PyStr.quoted in
  PyStr.unlines [
    "";
    "Create a detailed " +:+ PyStr.of_int weeks +:+ "-week study schedule for "
      +:+ str_of_option exam +:+ " exam preparation.";
    "Subjects to cover: " +:+ PyStr.join ", " subjects;
    "Study hours per day: " +:+ PyStr.of_int hours;
    "";
    "Provide a week-by-week breakdown with:";
    "- Topics to cover each week";
    "- Daily time allocation for each subject";
    "- Revision periods";
    "- Mock test schedules";
    "";
    "Format as JSON array with weekly plans:";
    "[";
    "  {";
    "    " +:+ q "week" +:+ ": 1,";
    "    " +:+ q "focus" +:+ ": " +:+ q "Foundation Building" +:+ ",";
    "    " +:+ q "daily_schedule" +:+ ": {";
    "      " +:+ q "Monday" +:+ ": {" +:+ q "subject" +:+ ": " +:+ q "Subject 1"
      +:+ ", " +:+ q "topics" +:+ ": [" +:+ q "Topic A" +:+ ", " +:+ q "Topic B"
      +:+ "], " +:+ q "hours" +:+ ": 4},";
    "      " +:+ q "Tuesday" +:+ ": {" +:+ q "subject" +:+ ": " +:+ q "Subject 2"
      +:+ ", " +:+ q "topics" +:+ ": [" +:+ q "Topic C" +:+ "], " +:+ q "hours"
      +:+ ": 4}";
    "    }";
    "  }";
    "]"
  ].

(** The text between the first opening and the last closing bracket:
    [start], [end] and [text[start:end]]. *)
Definition array_start (text : string) : Z := PyStr.find "["%char text.
Definition array_end (text : string) : Z := PyStr.rfind "]"%char text + 1.
Definition array_text (text : string) : string :=
  PyStr.slice text (array_start text) (array_end text).

Definition study_plan_try (c : gemini) (exam : option string)
    (subjects : list string) (weeks hours : Z) (g : Globals)
  : exc json * Globals :=
  let '(r, g1) := generate_content c (study_plan_prompt exam subjects weeks hours) g in
  (text <-! (t <-! r ;; stripped_text t) ;;
   if negb (array_start text =? -1) && (0 <? array_end text)
   then json_loads (array_text text)
   else Ret JNull,
   g1).

(** [generate_ai_study_plan]; Python's [None] is [JNull]. *)
Definition generate_ai_study_plan (exam : option string) (subjects : list string)
    (weeks hours : Z) (g : Globals) : json * Globals :=
  match client with
  | None => (JNull, g)
  | Some c =>
      match study_plan_try c exam subjects weeks hours g with
      | (Ret plan, g') => (plan, g')
      | (Raise _, g') => (JNull, g')
      end
  end.

(** *** Multiple-choice questions *)

(** [range(n)] *)
Definition range (n : Z) : list Z := map Z.of_nat (seq 0 (Z.to_nat n)).

Definition option_labels : list json :=
  [JStr "Option A"; JStr "Option B"; JStr "Option C"; JStr "Option D"].

Definition sample_mcq (subject : string) (i : Z) : json :=
  JObj [("question",
         JStr ("Sample " +:+ subject +:+ " question " +:+ PyStr.of_int (i + 1) +:+ "?"));
        ("options", JArr option_labels);
        ("answer", JStr "Option A")].

(** The list both fallbacks of [generate_ai_mcqs] build. *)
Definition fallback_mcqs (subject : string) (num_questions : Z) : list json :=
  map (sample_mcq subject) (range num_questions).

Definition mcq_prompt (subject : string) (num_questions : Z) (difficulty : string)
  : string :=
  let q := PyStr.quoted in
  PyStr.unlines [
    "";
    "You are an expert exam question setter.";
    "";
    "Generate " +:+ PyStr.of_int num_questions +:+ " " +:+ difficulty
      +:+ " difficulty multiple-choice questions";
    "for a Level 3 quiz on the subject: " +:+ subject +:+ ".";
    "";
    "STRICT RULES:";
    "- EXACTLY 4 options per question";
    "- Answer MUST be one of the options";
    "- No explanations";
    "- No markdown, no backticks";
    "- Output ONLY valid JSON";
    "";
    "JSON format:";
    "[";
    "  {";
    "    " +:+ q "question" +:+ ": " +:+ q "Question text" +:+ ",";
    "    " +:+ q "options" +:+ ": [" +:+ q "Option A" +:+ ", " +:+ q "Option B"
      +:+ ", " +:+ q "Option C" +:+ ", " +:+ q "Option D" +:+ "],";
    "    " +:+ q "answer" +:+ ": " +:+ q "Option A";
    "  }";
    "]"
  ].

(** The test of the validation loop on one element. *)
Definition valid_mcq (q : json) : bool :=
  match q with
  | JObj d =>
      has_key "question" d && has_key "options" d && has_key "answer" d
      && match assoc "options" d, assoc "answer" d with
         | Some (JArr opts), Some a => (length opts =? 4)%nat && py_in a opts
         | _, _ => false
         end
  | _ => false
  end.

(** [for q in mcqs]: a list yields its elements, a [dict] its keys, a
    [str] its characters; nothing else can be iterated. *)
Definition iterate (v : json) : exc (list json) :=
  match v with
  | JArr l => Ret l
  | JObj d => Ret (map (fun kv => JStr (fst kv)) d)
  | JStr s => Ret (map (fun c => JStr (String c EmptyString)) (list_ascii_of_string s))
  | _ => Raise TypeError
  end.

Definition mcqs_try (c : gemini) (subject : string) (num_questions : Z)
    (difficulty : string) (g : Globals) : exc (list json) * Globals :=
  let '(r, g1) := generate_content c (mcq_prompt subject num_questions difficulty) g in
  (text <-! (t <-! r ;; stripped_text t) ;;
   if (array_start text =? -1) || (array_end text =? 0) then Raise ValueError
   else
     mcqs <-! json_loads (array_text text) ;;
     elements <-! iterate mcqs ;;
     let validated_mcqs := List.filter valid_mcq elements in
     match validated_mcqs with
     | [] => Raise ValueError
     | _ => Ret validated_mcqs
     end,
   g1).

Definition generate_ai_mcqs (subject : string) (num_questions : Z)
    (difficulty : string) (g : Globals) : list json * Globals :=
  match client with
  | None => (fallback_mcqs subject num_questions, g)
  | Some c =>
      match mcqs_try c subject num_questions difficulty g with
      | (Ret mcqs, g') => (mcqs, g')
      | (Raise _, g') => (fallback_mcqs subject num_questions, g')
      end
  end.

(** *** Study schedules *)

(** The name and the subjects [create_schedule] settles on. *)
Definition schedule_name_and_subjects (exam : option string)
    (custom_name : string) (subjects : list string) : string * list string :=
  match exam with
  | Some e =>
      match EXAM_PRESETS !! e with
      | Some p =>
          if negb (String.eqb e "Custom") then
            (preset_name p,
             match subjects with [] => preset_subjects p | _ => subjects end)
          else (if PyStr.truthy custom_name then custom_name else "Custom Study Plan",
                subjects)
      | None => (if PyStr.truthy custom_name then custom_name else "Custom Study Plan",
                 subjects)
      end
  | None => (if PyStr.truthy custom_name then custom_name else "Custom Study Plan",
             subjects)
  end.

(** [int(request.form.get(key, dflt))] *)
Definition form_int (field : option string) (dflt : Z) : exc Z :=
  match field with
  | Some s => PyStr.to_int s
  | None => Ret dflt
  end.

(** [create_schedule] on a POST request. *)
Definition create_schedule (now : PyDate.clock) (f : form) (g : Globals)
  : exc reply * Globals :=
  match form_int (form_weeks f) 12 with
  | Raise e => (Raise e, g)
  | Ret weeks =>
      match form_int (form_hours_per_day f) 4 with
      | Raise e => (Raise e, g)
      | Ret hours =>
          let '(schedule_name, subjects) :=
            schedule_name_and_subjects (form_exam_type f)
              (default "" (form_custom_name f)) (form_subjects f) in
          let s :=
            {| id := Z.of_nat (length (study_schedules g)) + 1;
               name := schedule_name;
               exam_type := form_exam_type f;
               subjects := subjects;
               weeks := weeks;
               hours_per_day := hours;
               created_date := PyDate.today_str now;
               start_date := default (PyDate.today_str now) (form_start_date f);
               status := "active";
               ai_plan := None; current_week := None; progress := None |} in
          let '(plan, g1) :=
            generate_ai_study_plan (form_exam_type f) subjects weeks hours g in
          let s := if truthy plan then set_ai_plan plan s else s in
          let g2 := save_schedules (with_schedules (study_schedules g1 ++ [s]) g1) in
          (Ret (RedirectToView (id s)), g2)
      end
  end.

(** The position of the first schedule with the given id:
    [next((s for s in study_schedules if s["id"] == schedule_id), None)]. *)
Fixpoint find_schedule (schedule_id : Z) (l : list schedule) : option (nat * schedule) :=
  match l with
  | [] => None
  | s :: l' =>
      if id s =? schedule_id then Some (O, s)
      else match find_schedule schedule_id l' with
           | Some (i, s') => Some (S i, s')
           | None => None
           end
  end.

Definition days_elapsed (now : PyDate.clock) (start : Z) : Z :=
  PyDate.today now - start.

(** [min(days_elapsed // 7 + 1, schedule["weeks"])] *)
Definition week_of (days weeks : Z) : Z := Z.min (days / 7 + 1) weeks.

(** [min((current_week / weeks) * 100, 100)]: the second argument is
    returned when it is less than the first. *)
Definition progress_of (current_week weeks : Z) : exc pynum :=
  r <-! PyFloat.true_div current_week weeks ;;
  x <-! PyFloat.mul_int r 100 ;;
  Ret (if PyFloat.int_ltb 100 x then PInt 100 else PFloat x).

(** [round(p, 1)]: an [int] rounds to itself. *)
Definition round_progress (p : pynum) : exc pynum :=
  match p with
  | PInt n => Ret (PInt n)
  | PFloat x => y <-! PyFloat.round1 x ;; Ret (PFloat y)
  end.

(** [view_schedule].  The record found in the list is the object the
    two assignments write to: they update the list element in place. *)
Definition view_schedule (now : PyDate.clock) (schedule_id : Z) (g : Globals)
  : exc reply * Globals :=
  match find_schedule schedule_id (study_schedules g) with
  | None => (Ret NotFound404, g)
  | Some (i, s) =>
      match PyDate.strptime (start_date s) with
      | Raise e => (Raise e, g)
      | Ret start =>
          let w := week_of (days_elapsed now start) (weeks s) in
          match progress_of w (weeks s) with
          | Raise e => (Raise e, g)
          | Ret p =>
              let s1 := set_current_week w s in
              let g1 := with_schedules (<[i := s1]> (study_schedules g)) g in
              match round_progress p with
              | Raise e => (Raise e, g1)
              | Ret p' =>
                  let s2 := set_progress p' s1 in
                  (Ret (RenderSchedule s2),
                   with_schedules (<[i := s2]> (study_schedules g1)) g1)
              end
          end
      end
  end.

(** [delete_schedule] *)
Definition delete_schedule (schedule_id : Z) (g : Globals) : exc reply * Globals :=
  let kept := List.filter (fun s => negb (id s =? schedule_id)) (study_schedules g) in
  (Ret RedirectToHome, save_schedules (with_schedules kept g)).

End App.

(** ** The quiz page *)

Inductive method := GET | POST.

(** What [ai_quiz] renders: the quiz with its questions, or the result
    with the score and the number of questions. *)
Inductive quiz_reply :=
| QuizPage (mcqs : list json)
| QuizResult (score total : Z).

Section Quiz.

Variable client : option gemini.
Variable json_loads : string -> exc json.

(** [selected == q.get("answer")]: [selected] is a [str], or [None] when
    the field was not posted; [q.get] gives [None] for a missing key, and
    a JSON [null] is [None] as well. *)
Definition selected_is (selected : option string) (answer : option json) : bool :=
  match selected, answer with
  | Some s, Some (JStr t) => String.eqb s t
  | None, None | None, Some JNull => true
  | _, _ => false
  end.

(** The grading loop from index [i] on: only a [dict] has [get]. *)
Fixpoint grade (fields : string -> option string) (i : Z) (l : list json) (score : Z)
  : exc Z :=
  match l with
  | [] => Ret score
  | JObj d :: l' =>
      grade fields (i + 1) l'
        (if selected_is (fields ("q" +:+ PyStr.of_int i)) (assoc "answer" d)
         then score + 1 else score)
  | _ :: _ => Raise AttributeError
  end.

(** [ai_quiz]: [fields] is [request.form.get]. *)
Definition ai_quiz (sub : string) (m : method) (fields : string -> option string)
    (g : Globals) : exc quiz_reply * Globals :=
  match m with
  | POST =>
      let mcqs :=
        match json_loads (default "[]" (fields "mcqs_json")) with
        | Ret v => v
        | Raise _ => JArr []
        end in
      (elements <-! iterate mcqs ;;
       score <-! grade fields 0 elements 0 ;;
       Ret (QuizResult score (Z.of_nat (length elements))),
       g)
  | GET =>
      let '(mcqs, g') := generate_ai_mcqs client json_loads sub 5 "medium" g in
      (Ret (QuizPage mcqs), g')
  end.

End Quiz.

(** * Specification vocabulary *)

(** The ways [generate_ai_mcqs] fails to obtain questions from the
    client: there is no client; the call raises; the response has no
    text; the text has no opening or no closing bracket; the text
    between the brackets is not JSON; the parsed value cannot be
    iterated; no element passes the validation. *)
Inductive mcq_failure (client : option gemini) (json_loads : string -> exc json)
    (subject : string) (n : Z) (difficulty : string) (g : Globals) : Prop :=
| Unavailable :
    client = None ->
    mcq_failure client json_loads subject n difficulty g
| CallRaises c e :
    client = Some c ->
    c (gen_log g) (mcq_prompt subject n difficulty) = Raise e ->
    mcq_failure client json_loads subject n difficulty g
| NoText c :
    client = Some c ->
    c (gen_log g) (mcq_prompt subject n difficulty) = Ret None ->
    mcq_failure client json_loads subject n difficulty g
| NoArray c text :
    client = Some c ->
    c (gen_log g) (mcq_prompt subject n difficulty) = Ret (Some text) ->
    array_start (PyStr.strip text) = -1 \/ array_end (PyStr.strip text) = 0 ->
    mcq_failure client json_loads subject n difficulty g
| ParseFails c text e :
    client = Some c ->
    c (gen_log g) (mcq_prompt subject n difficulty) = Ret (Some text) ->
    json_loads (array_text (PyStr.strip text)) = Raise e ->
    mcq_failure client json_loads subject n difficulty g
| NotIterable c text v e :
    client = Some c ->
    c (gen_log g) (mcq_prompt subject n difficulty) = Ret (Some text) ->
    json_loads (array_text (PyStr.strip text)) = Ret v ->
    iterate v = Raise e ->
    mcq_failure client json_loads subject n difficulty g
| NoneValid c text v elements :
    client = Some c ->
    c (gen_log g) (mcq_prompt subject n difficulty) = Ret (Some text) ->
    json_loads (array_text (PyStr.strip text)) = Ret v ->
    iterate v = Ret elements ->
    List.filter valid_mcq elements = [] ->
    mcq_failure client json_loads subject n difficulty g.

(** A placeholder question: the four fixed labels as options and the
    first of them as answer. *)
Definition placeholder (q : json) : Prop :=
  exists text,
    q = JObj [("question", JStr text); ("options", JArr option_labels);
              ("answer", JStr "Option A")].

(** [delete] as the specification words it: the first record whose id
    matches is removed. *)
Fixpoint remove_first (schedule_id : Z) (l : list schedule) : list schedule :=
  match l with
  | [] => []
  | s :: l' => if id s =? schedule_id then l' else s :: remove_first schedule_id l'
  end.

(** The records with the given id. *)
Definition matching (schedule_id : Z) (l : list schedule) : list schedule :=
  List.filter (fun s => id s =? schedule_id) l.

(** The value of a finite float as a rational number. *)
Definition to_Q (neg : bool) (m e : Z) : QArith_base.Q :=
  QArith_base.Qmake (PyFloat.shl (PyFloat.signed neg m) e)
                    (Z.to_pos (PyFloat.shl 1 (- e))).

(** [p <= k] for a stored number [p] and an integer [k]. *)
Definition at_most (p : pynum) (k : Z) : Prop :=
  match p with
  | PInt n => n <= k
  | PFloat (PyFloat.Finite neg m e) =>
      QArith_base.Qle (to_Q neg m e) (QArith_base.inject_Z k)
  | PFloat (PyFloat.Inf neg) => neg = true
  | PFloat PyFloat.NaN => False
  end.

(** [n / d < 2^j], without fractions. *)
Definition below (n d j : Z) : Prop := PyFloat.shl n (- j) < PyFloat.shl d j.

(** The float nearest to [t / 10] is at most 100. *)
Definition tenth_at_most_100 (t : Z) : bool :=
  match PyFloat.round_pos t 10 with
  | Some (m, e) => PyFloat.shl m e <=? PyFloat.shl 100 (- e)
  | None => false
  end.

(** The ways [generate_ai_study_plan] ends without a plan: there is no
    client; the call raises; the response has no text; the text has no
    opening or no closing bracket; the text between the brackets is not
    JSON. *)
Inductive study_plan_failure (client : option gemini) (json_loads : string -> exc json)
    (prompt : string) (g : Globals) : Prop :=
| PlanUnavailable :
    client = None ->
    study_plan_failure client json_loads prompt g
| PlanCallRaises c e :
    client = Some c ->
    c (gen_log g) prompt = Raise e ->
    study_plan_failure client json_loads prompt g
| PlanNoText c :
    client = Some c ->
    c (gen_log g) prompt = Ret None ->
    study_plan_failure client json_loads prompt g
| PlanNoArray c text :
    client = Some c ->
    c (gen_log g) prompt = Ret (Some text) ->
    array_start (PyStr.strip text) = -1 \/ array_end (PyStr.strip text) = 0 ->
    study_plan_failure client json_loads prompt g
| PlanParseFails c text e :
    client = Some c ->
    c (gen_log g) prompt = Ret (Some text) ->
    json_loads (array_text (PyStr.strip text)) = Raise e ->
    study_plan_failure client json_loads prompt g.

(** The shape of a multiple-choice question: a [dict] with a question,
    a list of exactly four options and an answer that is one of them. *)
Definition well_formed_mcq (q : json) : Prop :=
  exists d opts a,
    q = JObj d
    /\ has_key "question" d = true
    /\ assoc "options" d = Some (JArr opts)
    /\ length opts = 4%nat
    /\ assoc "answer" d = Some a
    /\ py_in a opts = true.


(** The ids of the list are 1, 2, ... in order. *)
Definition sequential_ids (l : list schedule) : Prop :=
  map id l = map Z.of_nat (seq 1 (length l)).

(** A sequence of POST requests to [/study-schedule/create], each at its
    own time. *)
Fixpoint run_creates (client : option gemini) (json_loads : string -> exc json)
    (requests : list (PyDate.clock * form)) (g : Globals) : Globals :=
  match requests with
  | [] => g
  | (now, f) :: rest =>
      run_creates client json_loads rest
        (snd (create_schedule client json_loads now f g))
  end.

(** [k <= p] for an integer [k] and a stored number [p]. *)
Definition at_least (p : pynum) (k : Z) : Prop :=
  match p with
  | PInt n => k <= n
  | PFloat (PyFloat.Finite neg m e) =>
      QArith_base.Qle (QArith_base.inject_Z k) (to_Q neg m e)
  | PFloat (PyFloat.Inf neg) => neg = false
  | PFloat PyFloat.NaN => False
  end.

(** 1.0 and 100.0 *)
Definition float_1 : PyFloat.float := PyFloat.Finite false (2 ^ 52) (-52).
Definition float_100 : PyFloat.float := PyFloat.Finite false 7036874417766400 (-46).

(** * Scenarios *)

(** The state of a fresh installation: no cache file, no schedule file,
    a directory that can be written. *)
Definition fresh : Globals := startup None None true.

(** A client that always answers with the given text, and one that
    always raises. *)
Definition answering (text : string) : gemini := fun _ _ => Ret (Some text).
Definition failing : gemini := fun _ _ => Raise GenerationError.

(** A [json.loads] that rejects every text, and one that parses a single
    text. *)
Definition no_json : string -> exc json := fun _ => Raise ValueError.
Definition loads_only (text : string) (v : json) : string -> exc json :=
  fun s => if String.eqb s text then Ret v else Raise ValueError.


(** A state whose cache holds one answer. *)
Definition cache_of (question ans : string) : Globals :=
  with_cache {[ question := ans ]} fresh.

(** The state after a client has answered a question with blanks. *)
Definition after_blank_answer : Globals :=
  snd (get_answer (Some (answering "   ")) "Math" "What is a group?" fresh).

(** Two elements of a generated quiz: one with three options, one that
    passes the validation. *)
Definition three_options : json :=
  JObj [("question", JStr "Q1"); ("options", JArr [JStr "a"; JStr "b"; JStr "c"]);
        ("answer", JStr "a")].
Definition good_mcq : json :=
  JObj [("question", JStr "Q2");
        ("options", JArr [JStr "a"; JStr "b"; JStr "c"; JStr "d"]);
        ("answer", JStr "d")].

(** The clock of the scenarios: 3 November 2026. *)
Definition now0 : PyDate.clock :=
  {| PyDate.today := 739923; PyDate.today_str := "2026-11-03" |}.

(** A posted form with an exam type, a number of weeks and a start date. *)
Definition form_of (exam weeks start : string) : form :=
  {| form_exam_type := Some exam; form_custom_name := None;
     form_weeks := Some weeks; form_hours_per_day := Some "4";
     form_subjects := []; form_start_date := Some start |}.

(** [create_schedule] and [delete_schedule] without a client, as state
    transformers. *)
Definition create (f : form) (g : Globals) : Globals :=
  snd (create_schedule None no_json now0 f g).
Definition delete (schedule_id : Z) (g : Globals) : Globals :=
  snd (delete_schedule schedule_id g).

(** One schedule; the same after it has been viewed. *)
Definition one_schedule : Globals := create (form_of "GATE" "24" "2026-11-03") fresh.
Definition after_view : Globals := snd (view_schedule now0 1 one_schedule).

(** The record stored in [one_schedule], and the same record with the
    week and the progress (4.2) of 3 November 2026. *)
Definition gate_schedule : schedule :=
  {| id := 1; name := "GATE (Graduate Aptitude Test in Engineering)";
     exam_type := Some "GATE";
     subjects := ["Engineering Mathematics"; "General Aptitude";
                  "Technical Subject"; "Data Structures"; "Algorithms"];
     weeks := 24; hours_per_day := 4; created_date := "2026-11-03";
     start_date := "2026-11-03"; status := "active"; ai_plan := None;
     current_week := None; progress := None |}.
Definition gate_viewed : schedule :=
  set_progress (PFloat (PyFloat.Finite false 4728779608739021 (-50)))
    (set_current_week 1 gate_schedule).

(** Two schedules, with the ids 1 and 2. *)
Definition two_schedules : Globals :=
  create (form_of "JEE" "52" "2026-11-03") one_schedule.

(** Two schedules are created, the first is deleted, a third is created. *)
Definition after_recreate : Globals :=
  create (form_of "NEET" "48" "2026-11-03") (delete 1 two_schedules).


(** A schedule created with the text "0" in the weeks field, and the
    record it stores. *)
Definition zero_weeks : Globals := create (form_of "GATE" "0" "2026-11-03") fresh.
Definition zero_weeks_schedule : schedule :=
  {| id := 1; name := "GATE (Graduate Aptitude Test in Engineering)";
     exam_type := Some "GATE";
     subjects := ["Engineering Mathematics"; "General Aptitude";
                  "Technical Subject"; "Data Structures"; "Algorithms"];
     weeks := 0; hours_per_day := 4; created_date := "2026-11-03";
     start_date := "2026-11-03"; status := "active"; ai_plan := None;
     current_week := None; progress := None |}.

(** The quiz of five placeholders as it is posted back, and a form that
    selects the first option for every question. *)
Definition placeholder_payload : string := "[five placeholders]".
Definition placeholder_loads : string -> exc json :=
  loads_only placeholder_payload (JArr (fallback_mcqs "Math" 5)).
Definition all_option_a : string -> option string :=
  fun key =>
    if String.eqb key "mcqs_json" then Some placeholder_payload
    else Some "Option A".

(** * Properties *)

(** ** The runtime model *)

Example strip_ex : PyStr.strip "  a b  " = "a b".
Proof. reflexivity. Qed.

Example find_ex : PyStr.find "["%char "ab[c[" = 2 /\ PyStr.rfind "]"%char "a]b]c" = 3.
Proof. split; reflexivity. Qed.

Example slice_ex : PyStr.slice "xx[1,2]yy" 2 7 = "[1,2]" /\ PyStr.slice "a]b[c" 3 2 = "".
Proof. split; reflexivity. Qed.

Example to_int_ex :
  PyStr.to_int " -1_0 " = Ret (-10) /\ PyStr.to_int "1__0" = Raise ValueError
  /\ PyStr.to_int "" = Raise ValueError /\ PyStr.to_int "+007" = Ret 7
  /\ PyStr.to_int "0" = Ret 0.
Proof. repeat split; reflexivity. Qed.

Example of_int_ex : PyStr.of_int (-42) = "-42" /\ PyStr.of_int 0 = "0".
Proof. split; reflexivity. Qed.

Example strptime_ex :
  PyDate.strptime "2026-11-03" = Ret 739923
  /\ PyDate.strptime "2024-1-5" = Ret 738890
  /\ PyDate.strptime "2023-02-29" = Raise ValueError
  /\ PyDate.strptime "2024-01-32" = Raise ValueError
  /\ PyDate.strptime "0001-01-01" = Ret 1
  /\ PyDate.strptime "9999-12-31" = Ret 3652059.
Proof. repeat split; reflexivity. Qed.

(** 1/3 is 0x1.5555555555555p-2; 100/3 rounds to 33.3 and 6.25 to 6.2. *)
Example float_ex :
  PyFloat.true_div 1 3 = Ret (PyFloat.Finite false 6004799503160661 (-54))
  /\ (p <-! progress_of 1 3 ;; round_progress p)
     = Ret (PFloat (PyFloat.Finite false 4686558362232422 (-47)))
  /\ (p <-! progress_of 1 16 ;; round_progress p)
     = Ret (PFloat (PyFloat.Finite false 6980579422424269 (-50)))
  /\ PyFloat.true_div 1 0 = Raise ZeroDivisionError
  /\ PyFloat.true_div (2 ^ 1024) 1 = Raise OverflowError.
Proof. repeat split; vm_compute; reflexivity. Qed.

(** *** Floats: signs and bounds *)

Lemma pow2_pos s : 0 < 2 ^ Z.max s 0.
Proof. apply Z.pow_pos_nonneg; lia. Qed.

Lemma pow2_ge_1 x : 0 <= x -> 1 <= 2 ^ x.
Proof. intros H. pose proof (Z.pow_pos_nonneg 2 x ltac:(lia) H). lia. Qed.

Lemma shl_nonneg x s : 0 <= x -> 0 <= PyFloat.shl x s.
Proof. intros H. unfold PyFloat.shl. pose proof (pow2_pos s). nia. Qed.

Lemma shl_pos x s : 0 < x -> 0 < PyFloat.shl x s.
Proof. intros H. unfold PyFloat.shl. pose proof (pow2_pos s). nia. Qed.

Create HintDb pyfloat.
#[local] Hint Resolve shl_nonneg shl_pos : pyfloat.

Ltac case_ifs :=
  repeat match goal with |- context [if ?b then _ else _] => destruct b end.

Lemma rne_div_nonneg n d : 0 <= n -> 0 < d -> 0 <= PyFloat.rne_div n d.
Proof.
  intros Hn Hd. unfold PyFloat.rne_div.
  assert (0 <= n / d) by (apply Z.div_pos; lia).
  case_ifs; lia.
Qed.

(** Rounding to the nearest integer does not pass an integer bound. *)
Lemma rne_div_le n d k : 0 < d -> n <= k * d -> PyFloat.rne_div n d <= k.
Proof.
  intros Hd Hn. unfold PyFloat.rne_div.
  pose proof (Z.div_mod n d ltac:(lia)) as Hdm.
  pose proof (Z.mod_pos_bound n d Hd) as Hr.
  assert (Hq : n / d <= k) by nia.
  destruct (2 * (n mod d) <? d) eqn:E1; [lia |].
  apply Z.ltb_ge in E1.
  assert (n / d < k) by nia.
  case_ifs; lia.
Qed.

Lemma round_pos_nonneg n d m e :
  0 <= n -> 0 < d -> PyFloat.round_pos n d = Some (m, e) -> 0 <= m.
Proof.
  intros Hn Hd. unfold PyFloat.round_pos.
  set (e0 := Z.max _ (-1074)).
  assert (Hm : 0 <= PyFloat.rne_div (PyFloat.shl n (- e0)) (PyFloat.shl d e0))
    by (apply rne_div_nonneg; auto with pyfloat).
  destruct (_ =? 2 ^ 53); destruct (971 <? _); intros [= <- <-]; lia.
Qed.

Lemma below_mono n d j j' : 0 < n -> 0 < d -> j <= j' -> below n d j -> below n d j'.
Proof.
  unfold below, PyFloat.shl. intros Hn Hd Hj.
  destruct (Z.le_gt_cases 0 j) as [H0 | H0]; [| destruct (Z.le_gt_cases 0 j') as [H1 | H1]].
  - rewrite (Z.max_r (- j)), (Z.max_l j), (Z.max_r (- j')), (Z.max_l j') by lia.
    pose proof (Z.pow_le_mono_r 2 j j' ltac:(lia) Hj). nia.
  - rewrite (Z.max_l (- j)), (Z.max_r j), (Z.max_r (- j')), (Z.max_l j') by lia.
    pose proof (pow2_ge_1 (- j) ltac:(lia)). pose proof (pow2_ge_1 j' H1). nia.
  - rewrite (Z.max_l (- j)), (Z.max_r j), (Z.max_l (- j')), (Z.max_r j') by lia.
    pose proof (Z.pow_le_mono_r 2 (- j') (- j) ltac:(lia) ltac:(lia)).
    pose proof (pow2_ge_1 (- j') ltac:(lia)). nia.
Qed.

Lemma below_log2 n d : 0 < n -> 0 < d -> below n d (Z.log2 n - Z.log2 d + 1).
Proof.
  intros Hn Hd. unfold below, PyFloat.shl.
  destruct (Z.log2_spec n Hn) as [Hn1 Hn2]. destruct (Z.log2_spec d Hd) as [Hd1 Hd2].
  pose proof (Z.log2_nonneg n) as Hln. pose proof (Z.log2_nonneg d) as Hld.
  set (ln := Z.log2 n) in *. set (ld := Z.log2 d) in *.
  destruct (Z.le_gt_cases 0 (ln - ld + 1)) as [H0 | H0].
  - rewrite Z.max_r, Z.max_l by lia.
    replace (Z.succ ln) with (ld + (ln - ld + 1)) in Hn2 by lia.
    rewrite Z.pow_add_r in Hn2 by lia.
    pose proof (Z.pow_pos_nonneg 2 (ln - ld + 1) ltac:(lia) H0). nia.
  - rewrite Z.max_l, Z.max_r by lia.
    assert (E : 2 ^ ld = 2 ^ Z.succ ln * 2 ^ (- (ln - ld + 1))).
    { rewrite <- Z.pow_add_r by lia. f_equal. lia. }
    pose proof (Z.pow_pos_nonneg 2 (- (ln - ld + 1)) ltac:(lia) ltac:(lia)). nia.
Qed.

Lemma below_53 n d e :
  0 < n -> 0 < d -> below n d (e + 53) ->
  PyFloat.shl n (- e) <= 2 ^ 53 * PyFloat.shl d e.
Proof.
  unfold below, PyFloat.shl. intros Hn Hd.
  destruct (Z.le_gt_cases 0 e) as [H0 | H0];
    [| destruct (Z.le_gt_cases 0 (e + 53)) as [H1 | H1]].
  - rewrite (Z.max_r (- (e + 53))), (Z.max_l (e + 53)), (Z.max_r (- e)), (Z.max_l e) by lia.
    rewrite Z.pow_add_r by lia. lia.
  - rewrite (Z.max_r (- (e + 53))), (Z.max_l (e + 53)), (Z.max_l (- e)), (Z.max_r e) by lia.
    intros H. assert (E : 2 ^ 53 = 2 ^ (e + 53) * 2 ^ (- e)).
    { rewrite <- Z.pow_add_r by lia. f_equal. lia. }
    pose proof (Z.pow_pos_nonneg 2 (- e) ltac:(lia) ltac:(lia)).
    rewrite E. nia.
  - rewrite (Z.max_l (- (e + 53))), (Z.max_r (e + 53)), (Z.max_l (- e)), (Z.max_r e) by lia.
    intros H. assert (E : 2 ^ (- e) = 2 ^ (- (e + 53)) * 2 ^ 53).
    { rewrite <- Z.pow_add_r by lia. f_equal. lia. }
    rewrite E. nia.
Qed.

(** [round_pos] returns a mantissa of at most 53 bits, and an exponent
    that follows the sizes of the numerator and the denominator. *)
Lemma round_pos_canonical n d m e :
  0 < n -> 0 < d -> PyFloat.round_pos n d = Some (m, e) ->
  0 <= m < 2 ^ 53
  /\ -1074 <= e <= Z.max (Z.log2 n - Z.log2 d - 52) (-1074) + 1.
Proof.
  intros Hn Hd E.
  assert (Hm : 0 <= m) by (apply (round_pos_nonneg n d m e); [lia | lia | exact E]).
  revert E. unfold PyFloat.round_pos.
  set (k := Z.log2 n - Z.log2 d - 1).
  set (b := if PyFloat.shl d (k + 1) <=? PyFloat.shl n (- (k + 1)) then k + 1 else k).
  set (e0 := Z.max (b - 52) (-1074)).
  assert (Hb : below n d (b + 1)).
  { subst b. destruct (PyFloat.shl d (k + 1) <=? PyFloat.shl n (- (k + 1))) eqn:Eb.
    - replace (k + 1 + 1) with (Z.log2 n - Z.log2 d + 1) by (subst k; lia).
      by apply below_log2.
    - apply Z.leb_gt in Eb. exact Eb. }
  assert (Hbk : b <= k + 1) by (subst b; destruct (_ <=? _); lia).
  pose proof (below_53 n d e0 Hn Hd
                (below_mono n d (b + 1) (e0 + 53) Hn Hd ltac:(lia) Hb)) as H53.
  pose proof (rne_div_le (PyFloat.shl n (- e0)) (PyFloat.shl d e0) (2 ^ 53)
                (shl_pos d e0 Hd) H53) as Hle.
  destruct (PyFloat.rne_div _ _ =? 2 ^ 53) eqn:E53.
  - destruct (971 <? e0 + 1); [discriminate |]. intros [= <- <-]. subst k. lia.
  - apply Z.eqb_neq in E53.
    destruct (971 <? e0); [discriminate |]. intros [= <- <-]. subst k. lia.
Qed.

(** [round_pos] overflows on huge quotients only. *)
Lemma round_pos_returns n d :
  Z.log2 n - Z.log2 d <= 1022 -> exists m e, PyFloat.round_pos n d = Some (m, e).
Proof.
  intros H. unfold PyFloat.round_pos.
  set (k := Z.log2 n - Z.log2 d - 1).
  set (b := if PyFloat.shl d (k + 1) <=? PyFloat.shl n (- (k + 1)) then k + 1 else k).
  assert (Hbk : b <= k + 1) by (subst b; destruct (_ <=? _); lia).
  set (e0 := Z.max (b - 52) (-1074)).
  destruct (PyFloat.rne_div _ _ =? 2 ^ 53).
  - destruct (971 <? e0 + 1) eqn:E; [apply Z.ltb_lt in E; subst k; lia | eauto].
  - destruct (971 <? e0) eqn:E; [apply Z.ltb_lt in E; subst k; lia | eauto].
Qed.

(** The quotient of two integers is a float when the divisor is not 0
    and the quotient is not huge. *)
Lemma true_div_returns a b :
  b <> 0 -> Z.log2 (Z.abs a) - Z.log2 (Z.abs b) <= 1022 ->
  exists neg m e,
    PyFloat.true_div a b = Ret (PyFloat.Finite neg m e)
    /\ 0 <= m < 2 ^ 53
    /\ e <= Z.max (Z.log2 (Z.abs a) - Z.log2 (Z.abs b) - 52) (-1074) + 1.
Proof.
  intros Hb Hl. unfold PyFloat.true_div.
  destruct (b =? 0) eqn:Eb; [apply Z.eqb_eq in Eb; contradiction |].
  destruct (a =? 0) eqn:Ea.
  - unfold PyFloat.zero. eexists _, 0, (-1074). split; [reflexivity |]. lia.
  - apply Z.eqb_neq in Ea.
    destruct (round_pos_returns (Z.abs a) (Z.abs b) Hl) as (m & e & E).
    rewrite E. eexists _, m, e. split; [reflexivity |].
    destruct (round_pos_canonical (Z.abs a) (Z.abs b) m e ltac:(lia) ltac:(lia) E).
    lia.
Qed.

(** What [true_div] returns is finite, and its divisor was not 0. *)
Lemma true_div_finite a b q :
  PyFloat.true_div a b = Ret q ->
  b <> 0 /\ exists neg m e, q = PyFloat.Finite neg m e /\ 0 <= m.
Proof.
  unfold PyFloat.true_div. destruct (b =? 0) eqn:Eb; [discriminate |].
  apply Z.eqb_neq in Eb. intros H. split; [assumption |]. revert H.
  destruct (a =? 0).
  - intros [= <-]. unfold PyFloat.zero. eexists _, _, _. split; [reflexivity | lia].
  - destruct (PyFloat.round_pos _ _) as [[m e]|] eqn:E; [|discriminate].
    intros [= <-]. eexists _, _, _. split; [reflexivity |].
    apply (round_pos_nonneg (Z.abs a) (Z.abs b) m e); [lia | lia | exact E].
Qed.

Lemma of_scaled_cases neg n s :
  0 <= n ->
  (exists m e, PyFloat.of_scaled neg n s = PyFloat.Finite neg m e /\ 0 <= m)
  \/ PyFloat.of_scaled neg n s = PyFloat.Inf neg.
Proof.
  intros Hn. unfold PyFloat.of_scaled. destruct (n =? 0).
  - left. unfold PyFloat.zero. eexists _, _. split; [reflexivity | lia].
  - destruct (PyFloat.round_pos _ _) as [[m e]|] eqn:E.
    + left. eexists _, _. split; [reflexivity |].
      apply (round_pos_nonneg (PyFloat.shl n s) (PyFloat.shl 1 (- s)) m e);
        [auto with pyfloat | apply shl_pos; lia | exact E].
    + by right.
Qed.

(** 100.0 is 0x1.9p+6. *)
Lemma of_int_100 :
  PyFloat.of_int 100 = Ret (PyFloat.Finite false 7036874417766400 (-46)).
Proof. vm_compute. reflexivity. Qed.

Lemma mul_int_100_cases neg m e x :
  0 <= m ->
  PyFloat.mul_int (PyFloat.Finite neg m e) 100 = Ret x ->
  (exists m' e', x = PyFloat.Finite neg m' e' /\ 0 <= m') \/ x = PyFloat.Inf neg.
Proof.
  intros Hm. unfold PyFloat.mul_int. rewrite of_int_100. simpl.
  intros [= <-]. rewrite xorb_false_r.
  destruct (of_scaled_cases neg (m * 7036874417766400) (e + -46) ltac:(lia))
    as [(m' & e' & -> & H) | ->]; [left | right]; eauto.
Qed.

(** The product with 100 of a float below 1 in magnitude. *)
Lemma mul_int_100_returns neg m e :
  0 <= m < 2 ^ 53 -> e <= 0 ->
  exists x,
    PyFloat.mul_int (PyFloat.Finite neg m e) 100 = Ret x
    /\ ((exists m' e', x = PyFloat.Finite neg m' e' /\ 0 <= m' < 2 ^ 53 /\ e' <= 900)
        \/ x = PyFloat.Inf neg).
Proof.
  intros Hm He. unfold PyFloat.mul_int. rewrite of_int_100. cbn [exc_bind].
  eexists. split; [reflexivity |]. cbn [PyFloat.mul]. rewrite xorb_false_r.
  unfold PyFloat.of_scaled.
  destruct (m * 7036874417766400 =? 0) eqn:E0.
  - left. unfold PyFloat.zero. exists 0, (-1074). split; [reflexivity | lia].
  - apply Z.eqb_neq in E0.
    destruct (PyFloat.round_pos _ _) as [[m' e']|] eqn:E; [left | by right].
    exists m', e'. split; [reflexivity |].
    assert (Hs : PyFloat.shl (m * 7036874417766400) (e + -46) = m * 7036874417766400).
    { unfold PyFloat.shl. rewrite Z.max_r by lia. lia. }
    rewrite Hs in E.
    destruct (round_pos_canonical (m * 7036874417766400)
                (PyFloat.shl 1 (- (e + -46))) m' e')
      as [Hm' He']; [lia | apply shl_pos; lia | exact E |].
    split; [assumption |].
    assert (Z.log2 (m * 7036874417766400) <= Z.log2 (2 ^ 53 * 7036874417766400))
      by (apply Z.log2_le_mono; lia).
    change (Z.log2 (2 ^ 53 * 7036874417766400)) with 105 in *.
    pose proof (Z.log2_nonneg (PyFloat.shl 1 (- (e + -46)))).
    lia.
Qed.

Lemma at_most_finite neg m e k :
  PyFloat.shl (PyFloat.signed neg m) e <= PyFloat.shl k (- e) ->
  at_most (PFloat (PyFloat.Finite neg m e)) k.
Proof.
  intros H. unfold at_most, to_Q, QArith_base.Qle, QArith_base.inject_Z. simpl.
  rewrite Z2Pos.id by (apply shl_pos; lia).
  unfold PyFloat.shl in *. lia.
Qed.

(** The floats nearest to 0.1, 0.2, ..., 100.0 are at most 100. *)
Lemma tenths_checked : forallb tenth_at_most_100 (map Z.of_nat (seq 1 1000)) = true.
Proof. vm_compute. reflexivity. Qed.

Lemma tenth_bound t m e :
  1 <= t <= 1000 -> PyFloat.round_pos t 10 = Some (m, e) ->
  PyFloat.shl m e <= PyFloat.shl 100 (- e).
Proof.
  intros Ht E. pose proof tenths_checked as H.
  rewrite forallb_forall in H. specialize (H t).
  unfold tenth_at_most_100 in H. rewrite E in H.
  apply Z.leb_le, H, in_map_iff. exists (Z.to_nat t). split; [lia |].
  apply in_seq. lia.
Qed.

(** [round(x, 1)] of a float that is not above 100 is not above 100. *)
Lemma round1_at_most neg m e y :
  0 <= m ->
  PyFloat.int_ltb 100 (PyFloat.Finite neg m e) = false ->
  PyFloat.round1 (PyFloat.Finite neg m e) = Ret y ->
  at_most (PFloat y) 100.
Proof.
  intros Hm Hlt. unfold PyFloat.round1.
  set (t := PyFloat.rne_div _ _).
  assert (Ht0 : 0 <= t).
  { apply rne_div_nonneg; [apply shl_nonneg; lia | apply shl_pos; lia]. }
  destruct (t =? 0) eqn:Et.
  - intros [= <-]. apply at_most_finite.
    unfold PyFloat.signed, PyFloat.shl. destruct neg; simpl; lia.
  - apply Z.eqb_neq in Et.
    destruct (PyFloat.round_pos t 10) as [[m' e']|] eqn:E; [|discriminate].
    intros [= <-]. apply at_most_finite.
    assert (Hm' : 0 <= m') by (apply (round_pos_nonneg t 10 m' e'); [lia | lia | exact E]).
    destruct neg; simpl.
    + pose proof (shl_nonneg m' e' Hm'). pose proof (shl_nonneg 100 (- e') ltac:(lia)).
      unfold PyFloat.shl in *. lia.
    + apply (tenth_bound t); [|assumption]. split; [lia |].
      apply rne_div_le; [apply shl_pos; lia |].
      simpl in Hlt. apply Z.ltb_ge in Hlt.
      unfold PyFloat.shl in *. pose proof (pow2_pos e). pose proof (pow2_pos (- e)).
      nia.
Qed.

(** [round(x, 1)] returns on every float below [2^953] in magnitude. *)
Lemma round1_returns neg m e :
  0 <= m < 2 ^ 53 -> e <= 900 ->
  exists y, PyFloat.round1 (PyFloat.Finite neg m e) = Ret y.
Proof.
  intros Hm He. unfold PyFloat.round1.
  set (t := PyFloat.rne_div _ _).
  destruct (t =? 0) eqn:Et; [eauto |]. apply Z.eqb_neq in Et.
  assert (Ht0 : 0 <= t).
  { apply rne_div_nonneg; [apply shl_nonneg; lia | apply shl_pos; lia]. }
  assert (Ht : t <= 10 * 2 ^ 53 * 2 ^ 900).
  { apply rne_div_le; [apply shl_pos; lia |].
    unfold PyFloat.shl. rewrite Z.mul_1_l.
    pose proof (pow2_pos (- e)). pose proof (pow2_pos e).
    assert (2 ^ Z.max e 0 <= 2 ^ 900) by (apply Z.pow_le_mono_r; lia).
    nia. }
  destruct (round_pos_returns t 10) as (m' & e' & E).
  { assert (Z.log2 t <= Z.log2 (10 * 2 ^ 53 * 2 ^ 900)) by (apply Z.log2_le_mono; lia).
    change (Z.log2 (10 * 2 ^ 53 * 2 ^ 900)) with 956 in *.
    change (Z.log2 10) with 3. lia. }
  rewrite E. eauto.
Qed.

(** The progress of a schedule is never above 100. *)
Lemma progress_at_most w weeks p0 p :
  progress_of w weeks = Ret p0 -> round_progress p0 = Ret p -> at_most p 100.
Proof.
  unfold progress_of. intros H1 H2.
  destruct (PyFloat.true_div w weeks) as [q|] eqn:Hq; cbn [exc_bind] in H1;
    [|discriminate].
  apply true_div_finite in Hq as (_ & neg & m & e & -> & Hm).
  destruct (PyFloat.mul_int (PyFloat.Finite neg m e) 100) as [x|] eqn:Hx;
    cbn [exc_bind] in H1; [|discriminate].
  injection H1 as <-.
  destruct (PyFloat.int_ltb 100 x) eqn:Hlt.
  { injection H2 as <-. simpl. lia. }
  destruct (mul_int_100_cases _ _ _ _ Hm Hx) as [(m' & e' & -> & Hm') | ->].
  - unfold round_progress in H2.
    destruct (PyFloat.round1 (PyFloat.Finite neg m' e')) as [y|] eqn:Hy;
      cbn [exc_bind] in H2; [|discriminate].
    injection H2 as <-. by apply (round1_at_most neg m' e').
  - simpl in Hlt. destruct neg; [|discriminate].
    injection H2 as <-. reflexivity.
Qed.


(** *** Dates *)

Lemma days_before_month_range y m :
  1 <= m <= 12 ->
  0 <= PyDate.days_before_month y m
  /\ PyDate.days_before_month y m + PyDate.days_in_month y m
     <= 365 + (if PyDate.is_leap y then 1 else 0).
Proof.
  intros Hm.
  assert (Hc : m = 1 \/ m = 2 \/ m = 3 \/ m = 4 \/ m = 5 \/ m = 6 \/ m = 7
               \/ m = 8 \/ m = 9 \/ m = 10 \/ m = 11 \/ m = 12) by lia.
  unfold PyDate.days_before_month, PyDate.days_in_month.
  repeat (destruct Hc as [-> | Hc]); try subst m; simpl;
    destruct (PyDate.is_leap y); simpl; lia.
Qed.

Lemma make_date_range y m d n :
  PyDate.make_date y m d = Ret n -> 1 <= n <= 3652059.
Proof.
  unfold PyDate.make_date.
  destruct (_ && _) eqn:E; [|discriminate]. intros [= <-].
  repeat (apply andb_prop in E as [E ?]).
  repeat match goal with H : (_ <=? _) = true |- _ => apply Z.leb_le in H end.
  destruct (days_before_month_range y m ltac:(lia)) as [Hb1 Hb2].
  unfold PyDate.ordinal, PyDate.days_before_year.
  destruct (Z.eq_dec y 9999) as [-> | Hy].
  - assert (E1 : PyDate.is_leap 9999 = false) by reflexivity. rewrite E1 in Hb2.
    Z.div_mod_to_equations. lia.
  - assert (Hl : (if PyDate.is_leap y then 1 else 0) <= 1)
      by (destruct (PyDate.is_leap y); lia).
    Z.div_mod_to_equations. lia.
Qed.

(** A parsed date is a day of the years 1 to 9999. *)
Lemma strptime_range s n : PyDate.strptime s = Ret n -> 1 <= n <= 3652059.
Proof.
  unfold PyDate.strptime.
  destruct s as [|y1 [|y2 [|y3 [|y4 [|h r]]]]]; try discriminate.
  destruct (_ && _); [|discriminate].
  destruct (PyDate.parse_month r) as [[m r']|]; [|discriminate].
  destruct (PyDate.parse_day r') as [d|]; [|discriminate].
  apply make_date_range.
Qed.

(** ** The answer resolver *)

(** Every pre-written answer is a non-empty text. *)
Lemma questions_truthy :
  map_Forall (fun _ m => map_Forall (fun _ ans => PyStr.truthy ans = true) m) questions.
Proof. refine (bool_decide_eq_true_1 _ _). vm_compute. reflexivity. Qed.

Lemma prewritten_truthy sub question ans :
  prewritten sub question = Some ans -> PyStr.truthy ans = true.
Proof.
  unfold prewritten. destruct (questions !! sub) as [m|] eqn:Hsub; simpl.
  - intros Hq. exact (questions_truthy sub m Hsub question ans Hq).
  - rewrite lookup_empty. discriminate.
Qed.

Lemma get_answer_prewritten c sub question ans g :
  prewritten sub question = Some ans ->
  get_answer (Some c) sub question g = (ans, g).
Proof.
  intros H. unfold get_answer. rewrite H.
  by rewrite (prewritten_truthy _ _ _ H).
Qed.

Lemma get_answer_not_prewritten c sub question g :
  prewritten sub question = None ->
  get_answer (Some c) sub question g = cached_or_generated c sub question g.
Proof. intros H. unfold get_answer. by rewrite H. Qed.

(** C1 as stated fails: without a client the pre-written answer of a
    question of the bank is not returned. *)
Lemma C1_unconfigured_counterexample :
  prewritten "Math" "What is 2+2?" = Some "2+2 = 4"
  /\ get_answer None "Math" "What is 2+2?" fresh = (unavailable_message, fresh)
  /\ unavailable_message <> "2+2 = 4".
Proof. repeat split; try reflexivity. discriminate. Qed.

(** C1, amended: with a client configured, a question of the bank gets
    its pre-written answer whatever the cache holds and whatever the
    client would answer, and nothing is generated or cached; without a
    client every call returns the unavailability message and the bank is
    not consulted. *)
Theorem C1_prewritten_answer_when_configured :
  forall (c : gemini) (sub question ans : string) (g : Globals),
    prewritten sub question = Some ans ->
    get_answer (Some c) sub question g = (ans, g)
    /\ get_answer None sub question g = (unavailable_message, g)
    /\ (forall (sub' question' : string) (g' : Globals),
          get_answer None sub' question' g' = (unavailable_message, g')).
Proof.
  intros c sub question ans g H. split; [| split].
  - by apply get_answer_prewritten.
  - reflexivity.
  - reflexivity.
Qed.

Lemma C1_witness :
  get_answer (Some failing) "Science" "What is H2O?" fresh = ("H2O is water", fresh)
  /\ get_answer None "Science" "What is H2O?" fresh = (unavailable_message, fresh)
  /\ (forall (sub' question' : string) (g' : Globals),
        get_answer None sub' question' g' = (unavailable_message, g')).
Proof.
  apply (C1_prewritten_answer_when_configured failing "Science" "What is H2O?").
  reflexivity.
Defined.

(** The three outcomes of the [try] of [get_answer]. *)
Lemma get_answer_try_raise c sub question g e :
  c (gen_log g) (answer_prompt sub question) = Raise e ->
  get_answer_try c sub question g
  = (Raise e, snd (generate_content c (answer_prompt sub question) g)).
Proof. intros H. unfold get_answer_try. simpl. by rewrite H. Qed.

Lemma get_answer_try_no_text c sub question g :
  c (gen_log g) (answer_prompt sub question) = Ret None ->
  get_answer_try c sub question g
  = (Raise AttributeError, snd (generate_content c (answer_prompt sub question) g)).
Proof. intros H. unfold get_answer_try. simpl. by rewrite H. Qed.

Lemma get_answer_try_text c sub question g text :
  c (gen_log g) (answer_prompt sub question) = Ret (Some text) ->
  cache_file_writable g = true ->
  get_answer_try c sub question g
  = (Ret (if PyStr.truthy (PyStr.strip text) then PyStr.strip text
          else empty_answer_message),
     let g1 := snd (generate_content c (answer_prompt sub question) g) in
     dump_cache (with_cache (<[question := PyStr.strip text]> (ai_cache g1)) g1)).
Proof. intros H Hw. unfold get_answer_try. simpl. by rewrite H, Hw. Qed.


(** C5 as stated fails twice: without a client the cached answer is not
    returned, and with a client a pre-written answer of the asked
    subject goes before the cached one. *)
Lemma C5_cached_counterexample :
  ai_cache (cache_of "What is entropy?" "A measure of disorder.") !! "What is entropy?"
  = Some "A measure of disorder."
  /\ fst (get_answer None "Science" "What is entropy?"
            (cache_of "What is entropy?" "A measure of disorder."))
     = unavailable_message
  /\ unavailable_message <> "A measure of disorder."
  /\ ai_cache (cache_of "What is 2+2?" "four") !! "What is 2+2?" = Some "four"
  /\ fst (get_answer (Some failing) "Math" "What is 2+2?" (cache_of "What is 2+2?" "four"))
     = "2+2 = 4".
Proof. repeat split; try (vm_compute; reflexivity). discriminate. Qed.

(** C5, amended: for a question the cache holds, [get_answer] never calls
    the client (the log of prompts does not grow) and changes nothing;
    it returns the cached text verbatim when a client is configured and
    the subject has no pre-written answer for the question (the
    pre-written answer when it has one, the unavailability message when
    no client is configured). *)
Theorem C5_cached_answer_without_generation :
  forall (client : option gemini) (sub question cached : string) (g : Globals),
    ai_cache g !! question = Some cached ->
    get_answer client sub question g
    = (match client with
       | None => unavailable_message
       | Some _ => default cached (prewritten sub question)
       end, g)
    /\ gen_log (snd (get_answer client sub question g)) = gen_log g
    /\ (forall c, client = Some c -> prewritten sub question = None ->
        fst (get_answer client sub question g) = cached).
Proof.
  intros client sub question cached g Hc.
  assert (Heq : get_answer client sub question g
                = (match client with
                   | None => unavailable_message
                   | Some _ => default cached (prewritten sub question)
                   end, g)).
  { destruct client as [c|]; [|reflexivity].
    destruct (prewritten sub question) as [ans|] eqn:Hp.
    - by rewrite (get_answer_prewritten _ _ _ _ _ Hp).
    - rewrite (get_answer_not_prewritten _ _ _ _ Hp).
      unfold cached_or_generated. by rewrite Hc. }
  rewrite Heq. repeat split.
  intros c -> Hp. by rewrite Hp.
Qed.

Lemma C5_witness :
  fst (get_answer (Some failing) "Science" "What is entropy?"
         (cache_of "What is entropy?" "A measure of disorder."))
  = "A measure of disorder.".
Proof.
  refine (proj2 (proj2 (C5_cached_answer_without_generation (Some failing) "Science"
            "What is entropy?" "A measure of disorder."
            (cache_of "What is entropy?" "A measure of disorder.") _)) failing _ _);
    vm_compute; reflexivity.
Defined.

(** C6: when the call of the client raises, [get_answer] returns the
    failure message (it returns: the exception is caught), and the cache
    and its file are as before; only the log of prompts has grown.  The
    call is made when a client is configured and neither the bank nor
    the cache holds the question. *)
Theorem C6_generation_failure_is_caught :
  forall (c : gemini) (sub question : string) (g : Globals) (e : exn),
    prewritten sub question = None ->
    ai_cache g !! question = None ->
    c (gen_log g) (answer_prompt sub question) = Raise e ->
    get_answer (Some c) sub question g
    = (failure_message, snd (generate_content c (answer_prompt sub question) g))
    /\ ai_cache (snd (get_answer (Some c) sub question g)) = ai_cache g
    /\ ai_cache_json (snd (get_answer (Some c) sub question g)) = ai_cache_json g
    /\ gen_log (snd (get_answer (Some c) sub question g))
       = gen_log g ++ [answer_prompt sub question].
Proof.
  intros c sub question g e Hp Hc Hr.
  assert (Heq : get_answer (Some c) sub question g
                = (failure_message,
                   snd (generate_content c (answer_prompt sub question) g))).
  { rewrite (get_answer_not_prewritten _ _ _ _ Hp). unfold cached_or_generated.
    by rewrite Hc, (get_answer_try_raise _ _ _ _ _ Hr). }
  rewrite Heq. repeat split.
Qed.

Lemma C6_witness :
  get_answer (Some failing) "Math" "What is a group?" fresh
  = (failure_message,
     snd (generate_content failing (answer_prompt "Math" "What is a group?") fresh)).
Proof.
  refine (proj1 (C6_generation_failure_is_caught failing "Math" "What is a group?"
                   fresh GenerationError _ _ _)); vm_compute; reflexivity.
Defined.

(** A response without text is caught in the same way. *)
Lemma get_answer_no_text c sub question g :
  prewritten sub question = None ->
  ai_cache g !! question = None ->
  c (gen_log g) (answer_prompt sub question) = Ret None ->
  get_answer (Some c) sub question g
  = (failure_message, snd (generate_content c (answer_prompt sub question) g)).
Proof.
  intros Hp Hc Hr. rewrite (get_answer_not_prewritten _ _ _ _ Hp).
  unfold cached_or_generated. by rewrite Hc, (get_answer_try_no_text _ _ _ _ Hr).
Qed.

(** An answer that is empty after [strip] is put into the cache and
    dumped to the file before the sentinel is chosen. *)
Lemma get_answer_empty_text c sub question g text :
  prewritten sub question = None ->
  ai_cache g !! question = None ->
  c (gen_log g) (answer_prompt sub question) = Ret (Some text) ->
  cache_file_writable g = true ->
  PyStr.strip text = "" ->
  let g' := snd (get_answer (Some c) sub question g) in
  fst (get_answer (Some c) sub question g) = empty_answer_message
  /\ ai_cache g' = <[question := ""]> (ai_cache g)
  /\ ai_cache_json g' = Some (<[question := ""]> (ai_cache g)).
Proof.
  intros Hp Hc Hr Hw Hs. cbv zeta. rewrite (get_answer_not_prewritten _ _ _ _ Hp).
  unfold cached_or_generated.
  rewrite Hc, (get_answer_try_text _ _ _ _ _ Hr Hw), Hs. simpl. done.
Qed.

(** C2 on the code: a blank answer of the client is answered with the
    sentinel, but the empty text has been cached and written to the
    cache file, so the same question is answered with the empty text
    from then on, and the client is not asked again. *)
Theorem C2_blank_answer_is_cached :
  fst (get_answer (Some (answering "   ")) "Math" "What is a group?" fresh)
  = empty_answer_message
  /\ ai_cache fresh !! "What is a group?" = None
  /\ ai_cache after_blank_answer !! "What is a group?" = Some ""
  /\ ai_cache_json after_blank_answer = Some {[ "What is a group?" := "" ]}
  /\ get_answer (Some (answering "   ")) "Math" "What is a group?" after_blank_answer
     = ("", after_blank_answer).
Proof. repeat split; vm_compute; reflexivity. Qed.

(** A non-empty answer is cached, dumped and returned, and the next call
    for the question is served from the cache. *)
Example get_answer_generated :
  get_answer (Some (answering " A set with an operation. ")) "Math" "What is a group?" fresh
  = ("A set with an operation.",
     dump_cache (with_cache {[ "What is a group?" := "A set with an operation." ]}
                   (snd (generate_content (answering "")
                           (answer_prompt "Math" "What is a group?") fresh))))
  /\ fst (get_answer (Some failing) "Science" "What is a group?"
            (snd (get_answer (Some (answering " A set with an operation. ")) "Math"
                    "What is a group?" fresh)))
     = "A set with an operation.".
Proof. split; vm_compute; reflexivity. Qed.

(** ** The MCQ generator *)

Lemma range_length n : 0 <= n -> Z.of_nat (length (range n)) = n.
Proof. intros H. unfold range. rewrite length_map, length_seq. lia. Qed.

Lemma fallback_length subject n :
  0 <= n -> Z.of_nat (length (fallback_mcqs subject n)) = n.
Proof.
  intros H. unfold fallback_mcqs. rewrite length_map. by apply range_length.
Qed.

Lemma fallback_placeholders subject n : Forall placeholder (fallback_mcqs subject n).
Proof.
  unfold fallback_mcqs. apply Forall_forall. intros q Hq.
  apply list_elem_of_In, in_map_iff in Hq as (i & <- & _).
  unfold sample_mcq. by eexists.
Qed.

Lemma generate_ai_mcqs_fallback client json_loads subject n difficulty g :
  mcq_failure client json_loads subject n difficulty g ->
  fst (generate_ai_mcqs client json_loads subject n difficulty g)
  = fallback_mcqs subject n.
Proof.
  intros H. unfold generate_ai_mcqs, mcqs_try, stripped_text.
  destruct H as [-> | c e -> Hr | c -> Hr | c text -> Hr Hb | c text e -> Hr Hj
                 | c text v e -> Hr Hj Hi | c text v l -> Hr Hj Hi Hf];
    try reflexivity; simpl; rewrite Hr; simpl; try reflexivity.
  - destruct Hb as [-> | ->]; simpl; [reflexivity |].
    by destruct (array_start (PyStr.strip text) =? -1).
  - destruct ((array_start (PyStr.strip text) =? -1)
              || (array_end (PyStr.strip text) =? 0)); [reflexivity |].
    by rewrite Hj.
  - destruct ((array_start (PyStr.strip text) =? -1)
              || (array_end (PyStr.strip text) =? 0)); [reflexivity |].
    rewrite Hj. simpl. by rewrite Hi.
  - destruct ((array_start (PyStr.strip text) =? -1)
              || (array_end (PyStr.strip text) =? 0)); [reflexivity |].
    rewrite Hj. simpl. rewrite Hi. simpl. by rewrite Hf.
Qed.

(** Whatever the client and the parser do, the generator hands out the
    placeholders or a non-empty list of elements that passed the
    validation. *)
Lemma generate_ai_mcqs_cases client json_loads subject n difficulty g :
  fst (generate_ai_mcqs client json_loads subject n difficulty g)
  = fallback_mcqs subject n
  \/ (fst (generate_ai_mcqs client json_loads subject n difficulty g) <> []
      /\ Forall (fun q => valid_mcq q = true)
           (fst (generate_ai_mcqs client json_loads subject n difficulty g))).
Proof.
  unfold generate_ai_mcqs, mcqs_try, stripped_text.
  destruct client as [c|]; [| by left]. simpl.
  destruct (c (gen_log g) _) as [[text|]|]; simpl; try by left.
  destruct (_ || _); [by left |].
  destruct (json_loads _) as [v|]; simpl; [| by left].
  destruct (iterate v) as [l|]; simpl; [| by left].
  destruct (List.filter valid_mcq l) as [|q l'] eqn:E; [by left |].
  right. simpl. split; [discriminate |].
  rewrite <- E. apply Forall_forall. intros q' Hq.
  apply list_elem_of_In, filter_In in Hq. tauto.
Qed.

(** C7: in each of the failure cases [generate_ai_mcqs] returns (it is a
    total function: nothing is raised to the caller) the placeholder
    list, which depends on the subject and the count only, has exactly
    [num_questions] elements, and whose elements carry the four fixed
    option labels with the first label as answer. *)
Theorem C7_mcq_fallback :
  forall (client : option gemini) (json_loads : string -> exc json)
         (subject : string) (num_questions : Z) (difficulty : string) (g : Globals),
    0 <= num_questions ->
    mcq_failure client json_loads subject num_questions difficulty g ->
    let mcqs := fst (generate_ai_mcqs client json_loads subject num_questions difficulty g) in
    mcqs = fallback_mcqs subject num_questions
    /\ Z.of_nat (length mcqs) = num_questions
    /\ Forall placeholder mcqs
    /\ length option_labels = 4%nat
    /\ nth_error option_labels 0 = Some (JStr "Option A").
Proof.
  intros client json_loads subject n difficulty g Hn Hf. cbv zeta.
  rewrite (generate_ai_mcqs_fallback _ _ _ _ _ _ Hf).
  split; [reflexivity |]. split; [by apply fallback_length |].
  split; [apply fallback_placeholders |]. split; reflexivity.
Qed.

Lemma C7_witness :
  Z.of_nat (length (fst (generate_ai_mcqs (Some (answering "Here: [1, 2] "))
                           (loads_only "[1, 2]" (JArr [JInt 1; JInt 2]))
                           "Math" 5 "medium" fresh))) = 5.
Proof.
  refine (proj1 (proj2 (C7_mcq_fallback _ _ _ 5 _ _ _ _))); [lia |].
  eapply (NoneValid _ _ _ _ _ _ (answering "Here: [1, 2] ") "Here: [1, 2] "
            (JArr [JInt 1; JInt 2]) [JInt 1; JInt 2]); reflexivity.
Defined.

(** The five placeholders of the quiz page. *)
Example fallback_mcqs_ex :
  fst (generate_ai_mcqs None no_json "Math" 5 "medium" fresh)
  = map (fun t => JObj [("question", JStr t); ("options", JArr option_labels);
                        ("answer", JStr "Option A")])
      ["Sample Math question 1?"; "Sample Math question 2?";
       "Sample Math question 3?"; "Sample Math question 4?";
       "Sample Math question 5?"].
Proof. reflexivity. Qed.

(** The generator hands out what the client sent when an element is
    valid: here the second element, the first having three options. *)
Example generate_ai_mcqs_success :
  fst (generate_ai_mcqs (Some (answering "[...]"))
         (loads_only "[...]" (JArr [three_options; good_mcq]))
         "Math" 5 "medium" fresh) = [good_mcq].
Proof. vm_compute. reflexivity. Qed.

(** ** The schedule store *)

(** C4 on the code: the third schedule gets the id of the second, which
    is still stored; the redirect after the third creation then shows
    the second schedule, and deleting id 2 removes both. *)
Theorem C4_duplicate_ids_after_delete :
  map id (study_schedules two_schedules) = [1; 2]
  /\ map id (study_schedules (delete 1 two_schedules)) = [2]
  /\ map id (study_schedules after_recreate) = [2; 2]
  /\ map name (study_schedules after_recreate)
     = ["JEE (Joint Entrance Examination)";
        "NEET (National Eligibility cum Entrance Test)"]
  /\ fst (create_schedule None no_json now0 (form_of "NEET" "48" "2026-11-03")
            (delete 1 two_schedules))
     = Ret (RedirectToView 2)
  /\ option_map (fun p => name (snd p)) (find_schedule 2 (study_schedules after_recreate))
     = Some "JEE (Joint Entrance Examination)"
  /\ study_schedules (delete 2 after_recreate) = [].
Proof. repeat split; vm_compute; reflexivity. Qed.

(** What [create_schedule] does to the list when it returns. *)
Lemma create_schedule_id client json_loads now f g r g' :
  create_schedule client json_loads now f g = (Ret r, g') ->
  exists s,
    study_schedules g' = study_schedules g ++ [s]
    /\ id s = Z.of_nat (length (study_schedules g)) + 1
    /\ r = RedirectToView (id s)
    /\ study_schedules_json g' = Some (study_schedules g').
Proof.
  unfold create_schedule, generate_ai_study_plan.
  destruct (form_int (form_weeks f) 12) as [w|]; [|discriminate].
  destruct (form_int (form_hours_per_day f) 4) as [h|]; [|discriminate].
  destruct (schedule_name_and_subjects _ _ _) as [nm subj].
  destruct client as [c|].
  - unfold study_plan_try, generate_content.
    match goal with |- context [exc_bind ?a ?b] => destruct (exc_bind a b) as [plan|] end;
      simpl; [destruct (truthy plan) |]; intros [= <- <-]; simpl; eexists; repeat split.
  - simpl. intros [= <- <-]. simpl. eexists. repeat split.
Qed.

(** Without deletions the ids stay 1, 2, ..., hence distinct. *)
Lemma create_schedule_sequential client json_loads now f g r g' :
  map id (study_schedules g)
  = map Z.of_nat (seq 1 (length (study_schedules g))) ->
  create_schedule client json_loads now f g = (Ret r, g') ->
  map id (study_schedules g')
  = map Z.of_nat (seq 1 (length (study_schedules g')))
  /\ NoDup (map id (study_schedules g')).
Proof.
  intros Hseq Hc.
  destruct (create_schedule_id _ _ _ _ _ _ _ Hc) as (s & Hl & Hid & _ & _).
  assert (E : map id (study_schedules g')
              = map Z.of_nat (seq 1 (length (study_schedules g')))).
  { rewrite Hl, map_app, length_app, Hseq. simpl.
    rewrite Nat.add_1_r, seq_S, map_app. simpl. rewrite Hid. do 2 f_equal. lia. }
  split; [exact E |]. rewrite E.
  apply NoDup_fmap_2; [intros x y; lia | apply NoDup_ListNoDup, seq_NoDup].
Qed.

(** *** [delete_schedule] *)

Lemma filter_no_match schedule_id l :
  matching schedule_id l = [] ->
  List.filter (fun s => negb (id s =? schedule_id)) l = l.
Proof.
  unfold matching. induction l as [|s l IH]; simpl; [reflexivity |].
  destruct (id s =? schedule_id); simpl; [discriminate |].
  intros H. by rewrite IH.
Qed.

Lemma filter_one_match schedule_id l :
  (length (matching schedule_id l) <= 1)%nat ->
  List.filter (fun s => negb (id s =? schedule_id)) l = remove_first schedule_id l.
Proof.
  unfold matching. induction l as [|s l IH]; simpl; [reflexivity |].
  destruct (id s =? schedule_id) eqn:E; simpl; intros H.
  - apply filter_no_match. unfold matching.
    destruct (List.filter _ l); [reflexivity | simpl in H; lia].
  - by rewrite IH.
Qed.

(** C9 as stated fails where two records share an id (the state reached
    in [after_recreate]): both are removed, not the first only. *)
Lemma C9_delete_counterexample :
  map id (study_schedules after_recreate) = [2; 2]
  /\ study_schedules (snd (delete_schedule 2 after_recreate)) = []
  /\ map name (remove_first 2 (study_schedules after_recreate))
     = ["NEET (National Eligibility cum Entrance Test)"]
  /\ study_schedules (snd (delete_schedule 2 after_recreate))
     <> remove_first 2 (study_schedules after_recreate).
Proof. repeat split; try (vm_compute; reflexivity). vm_compute. discriminate. Qed.

(** C9, amended: [delete_schedule] keeps, in order, exactly the records
    whose id differs from the given one, writes the resulting list to
    the schedule file and returns a redirect (it raises nothing).  When
    at most one record has the id, this is the removal of the first
    matching record; when no record has it, the list is unchanged. *)
Theorem C9_delete_removes_matching :
  forall (schedule_id : Z) (g : Globals),
    fst (delete_schedule schedule_id g) = Ret RedirectToHome
    /\ study_schedules (snd (delete_schedule schedule_id g))
       = List.filter (fun s => negb (id s =? schedule_id)) (study_schedules g)
    /\ study_schedules_json (snd (delete_schedule schedule_id g))
       = Some (study_schedules (snd (delete_schedule schedule_id g)))
    /\ ((length (matching schedule_id (study_schedules g)) <= 1)%nat ->
        study_schedules (snd (delete_schedule schedule_id g))
        = remove_first schedule_id (study_schedules g))
    /\ (matching schedule_id (study_schedules g) = [] ->
        study_schedules (snd (delete_schedule schedule_id g)) = study_schedules g).
Proof.
  intros schedule_id g. simpl. repeat split.
  - apply filter_one_match.
  - apply filter_no_match.
Qed.

Lemma C9_witness :
  map id (study_schedules (snd (delete_schedule 1 two_schedules))) = [2]
  /\ study_schedules (snd (delete_schedule 7 two_schedules))
     = study_schedules two_schedules.
Proof.
  split.
  - rewrite (proj1 (proj2 (proj2 (proj2 (C9_delete_removes_matching 1 two_schedules))))).
    + reflexivity.
    + vm_compute. lia.
  - apply (proj2 (proj2 (proj2 (proj2 (C9_delete_removes_matching 7 two_schedules))))).
    reflexivity.
Defined.

(** *** [view_schedule] *)

Lemma find_schedule_lookup schedule_id l i s :
  find_schedule schedule_id l = Some (i, s) ->
  l !! i = Some s /\ id s = schedule_id.
Proof.
  revert i. induction l as [|s0 l IH]; simpl; intros i; [discriminate |].
  destruct (id s0 =? schedule_id) eqn:E.
  - intros [= <- <-]. split; [reflexivity | by apply Z.eqb_eq].
  - destruct (find_schedule schedule_id l) as [[j s']|]; [|discriminate].
    intros [= <- <-]. apply (IH j). reflexivity.
Qed.

(** An id that no stored record has is answered with 404, and nothing
    changes. *)
Lemma view_schedule_not_found now schedule_id g :
  matching schedule_id (study_schedules g) = [] ->
  view_schedule now schedule_id g = (Ret NotFound404, g).
Proof.
  intros H. unfold view_schedule.
  assert (E : find_schedule schedule_id (study_schedules g) = None).
  { revert H. unfold matching. induction (study_schedules g) as [|s l IH]; simpl;
      [reflexivity |].
    destruct (id s =? schedule_id); [discriminate |]. intros H. by rewrite IH. }
  by rewrite E.
Qed.

(** What a successful [view_schedule] of a stored schedule has done. *)
Lemma view_schedule_found now schedule_id g i s r g' :
  find_schedule schedule_id (study_schedules g) = Some (i, s) ->
  view_schedule now schedule_id g = (Ret r, g') ->
  exists start p0 p,
    PyDate.strptime (start_date s) = Ret start
    /\ progress_of (week_of (days_elapsed now start) (weeks s)) (weeks s) = Ret p0
    /\ round_progress p0 = Ret p
    /\ r = RenderSchedule
             (set_progress p (set_current_week (week_of (days_elapsed now start) (weeks s)) s))
    /\ g' = with_schedules
              (<[i := set_progress p
                        (set_current_week (week_of (days_elapsed now start) (weeks s)) s)]>
                 (study_schedules g)) g.
Proof.
  intros Hf. unfold view_schedule. rewrite Hf.
  destruct (PyDate.strptime (start_date s)) as [start|]; [|discriminate].
  destruct (progress_of _ (weeks s)) as [p0|] eqn:Hp0; [|discriminate].
  destruct (round_progress p0) as [p|] eqn:Hp; [|discriminate].
  intros [= <- <-]. exists start, p0, p. repeat split; try assumption.
  unfold with_schedules. simpl. by rewrite list_insert_insert_eq.
Qed.

(** C3 as stated fails: viewing a schedule writes the week and the
    progress into the stored record, and the next deletion (of any id)
    writes them to the schedule file. *)
Lemma C3_view_counterexample :
  study_schedules one_schedule = [gate_schedule]
  /\ study_schedules_json one_schedule = Some [gate_schedule]
  /\ study_schedules after_view = [gate_viewed]
  /\ current_week gate_schedule = None /\ current_week gate_viewed = Some 1
  /\ study_schedules after_view <> study_schedules one_schedule
  /\ study_schedules_json (delete 5 after_view) = Some [gate_viewed].
Proof. repeat split; try (vm_compute; reflexivity). vm_compute. discriminate. Qed.

(** C3, amended: a successful [view_schedule] replaces the stored record
    it found by the same record with the week and the progress assigned;
    the other keys of that record, the other records, the schedule file
    and the cache are as before.  The file gets the two keys with the
    next [save_schedules] that still holds the record: a creation that
    returns, or the deletion of another id; the deletion of the viewed
    id removes the record instead. *)
Theorem C3_view_writes_derived_fields :
  forall (now : PyDate.clock) (schedule_id : Z) (g g' : Globals) (i : nat)
         (s : schedule) (r : reply),
    find_schedule schedule_id (study_schedules g) = Some (i, s) ->
    view_schedule now schedule_id g = (Ret r, g') ->
    exists (w : Z) (p : pynum) (s' : schedule),
      r = RenderSchedule s'
      /\ study_schedules g' = <[i := s']> (study_schedules g)
      /\ study_schedules g' !! i = Some s'
      /\ current_week s' = Some w /\ progress s' = Some p
      /\ (id s' = id s /\ name s' = name s /\ exam_type s' = exam_type s
          /\ subjects s' = subjects s /\ weeks s' = weeks s
          /\ hours_per_day s' = hours_per_day s /\ created_date s' = created_date s
          /\ start_date s' = start_date s /\ status s' = status s
          /\ ai_plan s' = ai_plan s)
      /\ (forall j, j <> i -> study_schedules g' !! j = study_schedules g !! j)
      /\ study_schedules_json g' = study_schedules_json g
      /\ ai_cache g' = ai_cache g /\ ai_cache_json g' = ai_cache_json g
      /\ (forall other, other <> schedule_id ->
          exists saved,
            study_schedules_json (snd (delete_schedule other g')) = Some saved
            /\ In s' saved)
      /\ (forall (client : option gemini) (json_loads : string -> exc json)
                 (now' : PyDate.clock) (f : form) (r' : reply) (g'' : Globals),
          create_schedule client json_loads now' f g' = (Ret r', g'') ->
          exists saved, study_schedules_json g'' = Some saved /\ In s' saved)
      /\ (exists saved,
            study_schedules_json (snd (delete_schedule schedule_id g')) = Some saved
            /\ ~ In s' saved).
Proof.
  intros now schedule_id g g' i s r Hf Hv.
  destruct (view_schedule_found _ _ _ _ _ _ _ Hf Hv)
    as (start & p0 & p & _ & _ & _ & -> & ->).
  destruct (find_schedule_lookup _ _ _ _ Hf) as [Hi Hid].
  assert (Hlt : (i < length (study_schedules g))%nat) by (by eapply lookup_lt_Some).
  eexists _, p, _. split; [reflexivity |].
  split; [reflexivity |].
  split; [simpl; by apply list_lookup_insert_eq |].
  split; [reflexivity |]. split; [reflexivity |].
  split; [repeat split |].
  split; [intros j Hj; simpl; by apply list_lookup_insert_ne |].
  split; [reflexivity |]. split; [reflexivity |]. split; [reflexivity |].
  split; [| split].
  - intros other Hne. eexists. split; [reflexivity |]. simpl.
    apply filter_In. split.
    + apply list_elem_of_In, list_elem_of_lookup. exists i.
      by apply list_lookup_insert_eq.
    + simpl. apply negb_true_iff, Z.eqb_neq. lia.
  - intros client json_loads now' f r' g'' Hc.
    destruct (create_schedule_id _ _ _ _ _ _ _ Hc) as (s0 & Hl & _ & _ & Hj).
    exists (study_schedules g''). split; [exact Hj |].
    rewrite Hl. apply in_or_app. left.
    apply list_elem_of_In, list_elem_of_lookup. exists i.
    simpl. by apply list_lookup_insert_eq.
  - eexists. split; [reflexivity |]. simpl. intros Hin.
    apply filter_In in Hin as [_ Hin]. simpl in Hin.
    apply negb_true_iff, Z.eqb_neq in Hin. lia.
Qed.

Lemma C3_witness :
  exists (w : Z) (p : pynum) (s' : schedule),
    study_schedules after_view = <[0%nat := s']> (study_schedules one_schedule)
    /\ current_week s' = Some w /\ progress s' = Some p.
Proof.
  destruct (C3_view_writes_derived_fields now0 1 one_schedule after_view 0%nat
              gate_schedule (RenderSchedule gate_viewed)
              ltac:(vm_compute; reflexivity) ltac:(vm_compute; reflexivity))
    as (w & p & s' & _ & H1 & _ & H2 & H3 & _).
  exists w, p, s'. repeat split; assumption.
Defined.


Lemma week_of_bounds days weeks :
  week_of days weeks = Z.min (days / 7 + 1) weeks
  /\ week_of days weeks <= weeks
  /\ (1 <= week_of days weeks <-> 0 <= days /\ 1 <= weeks).
Proof.
  unfold week_of. split; [reflexivity |]. split; [lia |].
  Z.div_mod_to_equations. lia.
Qed.



(** *** When [view_schedule] returns *)

(** The week is small, or it is the number of weeks itself. *)
Lemma week_of_log2 days weeks :
  -3652058 <= days <= 3652058 ->
  Z.log2 (Z.abs (week_of days weeks)) - Z.log2 (Z.abs weeks) <= 19.
Proof.
  intros Hd. unfold week_of.
  pose proof (Z.log2_nonneg (Z.abs weeks)).
  destruct (Z.min_spec (days / 7 + 1) weeks) as [[_ ->] | [_ ->]]; [| lia].
  assert (Ha : Z.abs (days / 7 + 1) < 2 ^ 19) by (Z.div_mod_to_equations; lia).
  destruct (Z.eq_dec (Z.abs (days / 7 + 1)) 0) as [-> | Hz]; [simpl; lia |].
  assert (Z.log2 (Z.abs (days / 7 + 1)) < 19) by (apply Z.log2_lt_pow2; lia).
  lia.
Qed.

(** [view_schedule] returns on every stored schedule whose weeks are not
    0 and whose start date is a date, at every day of the clock. *)
Lemma view_schedule_returns now schedule_id g i s start :
  find_schedule schedule_id (study_schedules g) = Some (i, s) ->
  PyDate.strptime (start_date s) = Ret start ->
  weeks s <> 0 ->
  1 <= PyDate.today now <= 3652059 ->
  exists s' g', view_schedule now schedule_id g = (Ret (RenderSchedule s'), g').
Proof.
  intros Hf Hs Hw Hnow. unfold view_schedule. rewrite Hf, Hs.
  pose proof (strptime_range _ _ Hs) as Hstart.
  set (w := week_of (days_elapsed now start) (weeks s)).
  pose proof (week_of_log2 (days_elapsed now start) (weeks s)
                ltac:(unfold days_elapsed; lia)) as Hlog. fold w in Hlog.
  destruct (true_div_returns w (weeks s) Hw ltac:(lia)) as (neg & m & e & Hq & Hm & He).
  destruct (mul_int_100_returns neg m e Hm ltac:(lia)) as (x & Hx & Hcases).
  unfold progress_of. rewrite Hq. cbn [exc_bind]. rewrite Hx. cbn [exc_bind].
  destruct (PyFloat.int_ltb 100 x); [simpl; eauto |].
  destruct Hcases as [(m' & e' & -> & Hm' & He') | ->].
  - unfold round_progress.
    destruct (round1_returns neg m' e' Hm' He') as (y & ->). simpl. eauto.
  - simpl. eauto.
Qed.

(** [create_schedule] stores the parsed number of weeks as it is: no
    bound is checked. *)
Lemma create_schedule_weeks client json_loads now f g w h :
  form_int (form_weeks f) 12 = Ret w ->
  form_int (form_hours_per_day f) 4 = Ret h ->
  exists s,
    fst (create_schedule client json_loads now f g) = Ret (RedirectToView (id s))
    /\ study_schedules (snd (create_schedule client json_loads now f g))
       = study_schedules g ++ [s]
    /\ weeks s = w /\ hours_per_day s = h.
Proof.
  intros Hw Hh. unfold create_schedule, generate_ai_study_plan. rewrite Hw, Hh.
  destruct (schedule_name_and_subjects _ _ _) as [nm subj].
  destruct client as [c|].
  - unfold study_plan_try, generate_content.
    match goal with |- context [exc_bind ?a ?b] => destruct (exc_bind a b) as [plan|] end;
      simpl; [destruct (truthy plan) |]; simpl; eexists;
      (split; [| split; [reflexivity | split; reflexivity]]); reflexivity.
  - simpl. eexists. (split; [| split; [reflexivity | split; reflexivity]]); reflexivity.
Qed.

(** C10: [view_schedule] divides by the stored number of weeks without a
    guard.  On a stored schedule whose weeks are 0 it raises (the
    [ValueError] of an unreadable start date, else [ZeroDivisionError])
    and changes nothing, so a view that returns has non-zero weeks;
    with non-zero weeks and a start date that is a date it returns.
    [create_schedule] stores whatever integer the weeks field parses
    to, and posting "0" creates a schedule that cannot be viewed. *)
Theorem C10_view_divides_by_weeks :
  (forall (now : PyDate.clock) (schedule_id : Z) (g : Globals) (i : nat) (s : schedule),
      find_schedule schedule_id (study_schedules g) = Some (i, s) ->
      weeks s = 0 ->
      view_schedule now schedule_id g
      = (Raise (match PyDate.strptime (start_date s) with
                | Ret _ => ZeroDivisionError
                | Raise e => e
                end), g))
  /\ (forall (now : PyDate.clock) (schedule_id : Z) (g g' : Globals) (i : nat)
             (s : schedule) (r : reply),
      find_schedule schedule_id (study_schedules g) = Some (i, s) ->
      view_schedule now schedule_id g = (Ret r, g') ->
      weeks s <> 0)
  /\ (forall (now : PyDate.clock) (schedule_id : Z) (g : Globals) (i : nat)
             (s : schedule) (start : Z),
      find_schedule schedule_id (study_schedules g) = Some (i, s) ->
      PyDate.strptime (start_date s) = Ret start ->
      1 <= PyDate.today now <= 3652059 ->
      weeks s <> 0 ->
      exists s' g', view_schedule now schedule_id g = (Ret (RenderSchedule s'), g'))
  /\ (forall (client : option gemini) (json_loads : string -> exc json)
             (now : PyDate.clock) (f : form) (g : Globals) (w h : Z),
      form_int (form_weeks f) 12 = Ret w ->
      form_int (form_hours_per_day f) 4 = Ret h ->
      exists s,
        fst (create_schedule client json_loads now f g) = Ret (RedirectToView (id s))
        /\ study_schedules (snd (create_schedule client json_loads now f g))
           = study_schedules g ++ [s]
        /\ weeks s = w)
  /\ (fst (create_schedule None no_json now0 (form_of "GATE" "0" "2026-11-03") fresh)
      = Ret (RedirectToView 1)
      /\ study_schedules zero_weeks = [zero_weeks_schedule]
      /\ weeks zero_weeks_schedule = 0
      /\ view_schedule now0 1 zero_weeks = (Raise ZeroDivisionError, zero_weeks)).
Proof.
  assert (H0 : forall now schedule_id g i s,
             find_schedule schedule_id (study_schedules g) = Some (i, s) ->
             weeks s = 0 ->
             view_schedule now schedule_id g
             = (Raise (match PyDate.strptime (start_date s) with
                       | Ret _ => ZeroDivisionError
                       | Raise e => e
                       end), g)).
  { intros now schedule_id g i s Hf Hw. unfold view_schedule. rewrite Hf.
    destruct (PyDate.strptime (start_date s)) as [start|]; [|reflexivity].
    rewrite Hw. unfold progress_of, PyFloat.true_div. reflexivity. }
  split; [exact H0 |]. split; [| split; [| split]].
  - intros now schedule_id g g' i s r Hf Hv Hw.
    rewrite (H0 _ _ _ _ _ Hf Hw) in Hv. discriminate.
  - intros now schedule_id g i s start Hf Hs Hnow Hw.
    by apply (view_schedule_returns now schedule_id g i s start).
  - intros client json_loads now f g w h Hw Hh.
    destruct (create_schedule_weeks client json_loads now f g w h Hw Hh)
      as (s & H1 & H2 & H3 & _).
    exists s. repeat split; assumption.
  - repeat split; vm_compute; reflexivity.
Qed.

Lemma C10_witness :
  view_schedule now0 1 zero_weeks = (Raise ZeroDivisionError, zero_weeks)
  /\ (exists s' g', view_schedule now0 1 one_schedule = (Ret (RenderSchedule s'), g'))
  /\ exists s,
       study_schedules
         (snd (create_schedule None no_json now0 (form_of "JEE" " -3 " "tomorrow") fresh))
       = [s] /\ weeks s = -3.
Proof.
  split; [| split].
  - refine (proj1 C10_view_divides_by_weeks now0 1 zero_weeks 0%nat
              zero_weeks_schedule _ _); vm_compute; reflexivity.
  - refine (proj1 (proj2 (proj2 C10_view_divides_by_weeks)) now0 1 one_schedule 0%nat
              gate_schedule 739923 _ _ _ _);
      try (vm_compute; reflexivity); vm_compute; intuition discriminate.
  - destruct (proj1 (proj2 (proj2 (proj2 C10_view_divides_by_weeks))) None no_json now0
                (form_of "JEE" " -3 " "tomorrow") fresh (-3) 4
                ltac:(vm_compute; reflexivity) ltac:(vm_compute; reflexivity))
      as (s & _ & H & Hw).
    exists s. split; assumption.
Defined.

(** Non-zero weeks are not enough for a view to return: the start date
    is stored as posted and must be a date. *)
Example view_schedule_bad_date :
  view_schedule now0 1 (create (form_of "JEE" "52" "tomorrow") fresh)
  = (Raise ValueError, create (form_of "JEE" "52" "tomorrow") fresh).
Proof. vm_compute. reflexivity. Qed.

(** * Further properties *)

(** ** The answer resolver: caching *)

(** Everything [get_answer] can do to the globals. *)
Lemma get_answer_effect client sub question g :
  study_schedules (snd (get_answer client sub question g)) = study_schedules g
  /\ study_schedules_json (snd (get_answer client sub question g))
     = study_schedules_json g
  /\ cache_file_writable (snd (get_answer client sub question g))
     = cache_file_writable g
  /\ (snd (get_answer client sub question g) = g
      \/ (ai_cache g !! question = None
          /\ gen_log (snd (get_answer client sub question g))
             = gen_log g ++ [answer_prompt sub question]
          /\ ((ai_cache (snd (get_answer client sub question g)) = ai_cache g
               /\ ai_cache_json (snd (get_answer client sub question g))
                  = ai_cache_json g)
              \/ (exists ans,
                    ai_cache (snd (get_answer client sub question g))
                    = <[question := ans]> (ai_cache g)
                    /\ ((cache_file_writable g = true
                         /\ ai_cache_json (snd (get_answer client sub question g))
                            = Some (<[question := ans]> (ai_cache g)))
                        \/ (cache_file_writable g = false
                            /\ ai_cache_json (snd (get_answer client sub question g))
                               = ai_cache_json g)))))).
Proof.
  assert (H : forall c,
             study_schedules (snd (cached_or_generated c sub question g))
             = study_schedules g
             /\ study_schedules_json (snd (cached_or_generated c sub question g))
                = study_schedules_json g
             /\ cache_file_writable (snd (cached_or_generated c sub question g))
                = cache_file_writable g
             /\ (snd (cached_or_generated c sub question g) = g
                 \/ (ai_cache g !! question = None
                     /\ gen_log (snd (cached_or_generated c sub question g))
                        = gen_log g ++ [answer_prompt sub question]
                     /\ ((ai_cache (snd (cached_or_generated c sub question g))
                           = ai_cache g
                          /\ ai_cache_json (snd (cached_or_generated c sub question g))
                             = ai_cache_json g)
                         \/ (exists ans,
                               ai_cache (snd (cached_or_generated c sub question g))
                               = <[question := ans]> (ai_cache g)
                               /\ ((cache_file_writable g = true
                                    /\ ai_cache_json
                                         (snd (cached_or_generated c sub question g))
                                       = Some (<[question := ans]> (ai_cache g)))
                                   \/ (cache_file_writable g = false
                                       /\ ai_cache_json
                                            (snd (cached_or_generated c sub question g))
                                          = ai_cache_json g))))))).
  { intros c. unfold cached_or_generated.
    destruct (ai_cache g !! question) as [cached|] eqn:Hc; [simpl; auto 6 |].
    unfold get_answer_try, generate_content, stripped_text. simpl.
    destruct (c (gen_log g) (answer_prompt sub question)) as [[text|]|]; simpl;
      [destruct (cache_file_writable g) eqn:Hw; simpl | |];
      (split; [reflexivity |]); (split; [reflexivity |]); (split; [reflexivity |]);
      right; (split; [reflexivity |]); (split; [reflexivity |]); eauto 8. }
  unfold get_answer. destruct client as [c|]; [| simpl; auto 6].
  destruct (prewritten sub question) as [ans|]; [| apply H].
  destruct (PyStr.truthy ans); [simpl; auto 6 | apply H].
Qed.

(** X1: when the cache file can be written, a non-empty answer of the
    client is returned without the surrounding blanks, stored in the
    cache under the question alone and dumped to the cache file; from
    then on the question is answered from the cache for every subject
    that has no pre-written answer for it, whatever the client, and
    nothing changes any more. *)
Theorem get_answer_generates_then_caches :
  forall (c : gemini) (sub question text : string) (g : Globals),
    prewritten sub question = None ->
    ai_cache g !! question = None ->
    c (gen_log g) (answer_prompt sub question) = Ret (Some text) ->
    cache_file_writable g = true ->
    PyStr.strip text <> "" ->
    fst (get_answer (Some c) sub question g) = PyStr.strip text
    /\ ai_cache (snd (get_answer (Some c) sub question g))
       = <[question := PyStr.strip text]> (ai_cache g)
    /\ ai_cache_json (snd (get_answer (Some c) sub question g))
       = Some (<[question := PyStr.strip text]> (ai_cache g))
    /\ (forall (c' : gemini) (sub' : string),
          prewritten sub' question = None ->
          get_answer (Some c') sub' question (snd (get_answer (Some c) sub question g))
          = (PyStr.strip text, snd (get_answer (Some c) sub question g))).
Proof.
  intros c sub question text g Hp Hc Hr Hw Hne.
  assert (Ht : PyStr.truthy (PyStr.strip text) = true)
    by (destruct (PyStr.strip text); [contradiction | reflexivity]).
  assert (E : get_answer (Some c) sub question g
              = (PyStr.strip text,
                 let g1 := snd (generate_content c (answer_prompt sub question) g) in
                 dump_cache (with_cache (<[question := PyStr.strip text]> (ai_cache g1)) g1))).
  { rewrite (get_answer_not_prewritten _ _ _ _ Hp). unfold cached_or_generated.
    by rewrite Hc, (get_answer_try_text _ _ _ _ _ Hr Hw), Ht. }
  rewrite E. cbv zeta. repeat split.
  intros c' sub' Hp'. rewrite (get_answer_not_prewritten _ _ _ _ Hp').
  unfold cached_or_generated. simpl. by rewrite lookup_insert_eq.
Qed.

Lemma get_answer_generates_then_caches_witness :
  fst (get_answer (Some (answering " A set with an operation. ")) "Math"
         "What is a group?" fresh) = "A set with an operation.".
Proof.
  refine (proj1 (get_answer_generates_then_caches
                   (answering " A set with an operation. ") "Math" "What is a group?"
                   " A set with an operation. " fresh _ _ _ _ _));
    try (vm_compute; reflexivity).
  vm_compute. discriminate.
Defined.

(** X2: [get_answer] never removes or overwrites an entry of the cache,
    and the only key it can add is the question it was asked. *)
Theorem get_answer_cache_append_only :
  forall (client : option gemini) (sub question q : string) (g : Globals),
    q <> question \/ is_Some (ai_cache g !! q) ->
    ai_cache (snd (get_answer client sub question g)) !! q = ai_cache g !! q.
Proof.
  intros client sub question q g Hq.
  destruct (get_answer_effect client sub question g)
    as (_ & _ & _ & [-> | (Hnone & _ & [[-> _] | (ans & -> & _)])]); try reflexivity.
  apply lookup_insert_ne. intros <-.
  destruct Hq as [Hq | [v Hv]]; [by apply Hq | congruence].
Qed.

Lemma get_answer_cache_append_only_witness :
  ai_cache (snd (get_answer (Some (answering "An answer.")) "Math" "What is a ring?"
                   (cache_of "What is entropy?" "A measure of disorder.")))
    !! "What is entropy?"
  = ai_cache (cache_of "What is entropy?" "A measure of disorder.") !! "What is entropy?".
Proof.
  apply (get_answer_cache_append_only (Some (answering "An answer.")) "Math"
           "What is a ring?" "What is entropy?"
           (cache_of "What is entropy?" "A measure of disorder.")).
  left. discriminate.
Defined.



(** X4: [get_answer] never touches the schedules or their file, and it
    sends at most one prompt to the client, which is the prompt built
    from the subject and the question. *)
Theorem get_answer_frame :
  forall (client : option gemini) (sub question : string) (g : Globals),
    study_schedules (snd (get_answer client sub question g)) = study_schedules g
    /\ study_schedules_json (snd (get_answer client sub question g))
       = study_schedules_json g
    /\ (gen_log (snd (get_answer client sub question g)) = gen_log g
        \/ gen_log (snd (get_answer client sub question g))
           = gen_log g ++ [answer_prompt sub question]).
Proof.
  intros client sub question g.
  destruct (get_answer_effect client sub question g)
    as (H1 & H2 & _ & [-> | (_ & H3 & _)]); auto.
Qed.

(** ** The answer resolver: empty answers *)

(** X23: [get_answer] returns the empty text in one case only: a client
    is configured, the subject has no pre-written answer for the
    question, and the cache holds the empty text for it.  A fresh
    generation never returns it, and neither do the three messages. *)
Theorem get_answer_empty_iff :
  forall (client : option gemini) (sub question : string) (g : Globals),
    fst (get_answer client sub question g) = ""
    <-> client <> None
        /\ prewritten sub question = None
        /\ ai_cache g !! question = Some "".
Proof.
  intros client sub question g. split.
  - unfold get_answer. destruct client as [c|]; [| discriminate].
    assert (H : fst (cached_or_generated c sub question g) = "" ->
                ai_cache g !! question = Some "").
    { unfold cached_or_generated.
      destruct (ai_cache g !! question) as [cached|]; [simpl; by intros -> |].
      unfold get_answer_try, generate_content, stripped_text.
      destruct (c (gen_log g) (answer_prompt sub question)) as [[text|]|];
        try discriminate.
      simpl. destruct (cache_file_writable g); [| discriminate].
      by destruct (PyStr.strip text). }
    destruct (prewritten sub question) as [ans|] eqn:Hp.
    + rewrite (prewritten_truthy _ _ _ Hp). simpl. intros ->.
      apply prewritten_truthy in Hp. discriminate.
    + intros E. split; [discriminate |]. split; [reflexivity | by apply H].
  - intros (Hc & Hp & Hq). destruct client as [c|]; [| contradiction].
    rewrite (get_answer_not_prewritten _ _ _ _ Hp). unfold cached_or_generated.
    by rewrite Hq.
Qed.

(** ** The MCQ generator: what is handed out *)

Lemma valid_mcq_well_formed q : valid_mcq q = true -> well_formed_mcq q.
Proof.
  destruct q as [| | | | |l|d]; try discriminate. simpl. intros H.
  apply andb_prop in H as [H Hm]. apply andb_prop in H as [H _].
  apply andb_prop in H as [Hq _].
  destruct (assoc "options" d) as [[| | | | |opts|]|] eqn:Ho; try discriminate.
  destruct (assoc "answer" d) as [a|] eqn:Ha; try discriminate.
  apply andb_prop in Hm as [Hl Hin]. apply Nat.eqb_eq in Hl.
  exists d, opts, a. repeat split; assumption.
Qed.

Lemma sample_mcq_valid subject i : valid_mcq (sample_mcq subject i) = true.
Proof. reflexivity. Qed.

(** X5: every question [generate_ai_mcqs] hands out, a placeholder or an
    element sent by the client, is a [dict] with a question, exactly
    four options and an answer that is one of the options; and for a
    count of at least 1 the list is never empty. *)
Theorem generate_ai_mcqs_well_formed :
  forall (client : option gemini) (json_loads : string -> exc json)
         (subject : string) (num_questions : Z) (difficulty : string) (g : Globals),
    Forall well_formed_mcq
      (fst (generate_ai_mcqs client json_loads subject num_questions difficulty g))
    /\ (1 <= num_questions ->
        fst (generate_ai_mcqs client json_loads subject num_questions difficulty g) <> []).
Proof.
  intros client json_loads subject n difficulty g.
  destruct (generate_ai_mcqs_cases client json_loads subject n difficulty g)
    as [-> | [Hne Hv]].
  - split.
    + unfold fallback_mcqs. apply Forall_forall. intros q Hq.
      apply list_elem_of_In, in_map_iff in Hq as (i & <- & _).
      apply valid_mcq_well_formed, sample_mcq_valid.
    + intros Hn E. pose proof (fallback_length subject n ltac:(lia)) as Hl.
      rewrite E in Hl. simpl in Hl. lia.
  - split; [| intros _; exact Hne].
    eapply Forall_impl; [exact Hv |]. intros q. apply valid_mcq_well_formed.
Qed.

Lemma generate_ai_mcqs_well_formed_witness :
  fst (generate_ai_mcqs (Some failing) no_json "Math" 5 "medium" fresh) <> [].
Proof.
  apply (proj2 (generate_ai_mcqs_well_formed (Some failing) no_json "Math" 5 "medium"
                  fresh)).
  lia.
Defined.

(** X6: when the text of the client holds an array that parses to a
    list with at least one valid element, [generate_ai_mcqs] hands out
    exactly the valid elements, in their order: never more elements than
    were sent, whatever the requested count, and no element that fails
    the validation. *)
Theorem generate_ai_mcqs_keeps_valid_elements :
  forall (c : gemini) (json_loads : string -> exc json) (subject : string)
         (num_questions : Z) (difficulty text : string) (l : list json) (g : Globals),
    c (gen_log g) (mcq_prompt subject num_questions difficulty) = Ret (Some text) ->
    array_start (PyStr.strip text) <> -1 ->
    array_end (PyStr.strip text) <> 0 ->
    json_loads (array_text (PyStr.strip text)) = Ret (JArr l) ->
    List.filter valid_mcq l <> [] ->
    fst (generate_ai_mcqs (Some c) json_loads subject num_questions difficulty g)
    = List.filter valid_mcq l
    /\ (length (fst (generate_ai_mcqs (Some c) json_loads subject num_questions
                       difficulty g)) <= length l)%nat
    /\ (forall q, In q l -> valid_mcq q = false ->
        ~ In q (fst (generate_ai_mcqs (Some c) json_loads subject num_questions
                       difficulty g))).
Proof.
  intros c json_loads subject n difficulty text l g Hr Hs He Hj Hf.
  assert (E : fst (generate_ai_mcqs (Some c) json_loads subject n difficulty g)
              = List.filter valid_mcq l).
  { unfold generate_ai_mcqs, mcqs_try, stripped_text, generate_content.
    rewrite Hr. simpl.
    apply Z.eqb_neq in Hs, He. rewrite Hs, He. simpl. rewrite Hj. simpl.
    destruct (List.filter valid_mcq l); [contradiction | reflexivity]. }
  rewrite E. split; [reflexivity |]. split.
  - clear. induction l as [|q l IH]; simpl; [lia |].
    destruct (valid_mcq q); simpl; lia.
  - intros q _ Hq Hin. apply filter_In in Hin as [_ Hv]. congruence.
Qed.

Lemma generate_ai_mcqs_keeps_valid_elements_witness :
  fst (generate_ai_mcqs (Some (answering "[...]"))
         (loads_only "[...]" (JArr [three_options; good_mcq]))
         "Math" 5 "medium" fresh) = [good_mcq].
Proof.
  refine (proj1 (generate_ai_mcqs_keeps_valid_elements (answering "[...]")
                   (loads_only "[...]" (JArr [three_options; good_mcq]))
                   "Math" 5 "medium" "[...]" [three_options; good_mcq] fresh
                   _ _ _ _ _));
    try (vm_compute; reflexivity); vm_compute; discriminate.
Defined.

(** *** The text between the brackets *)

Lemma find_ge c s : -1 <= PyStr.find c s.
Proof.
  induction s as [|d s IH]; simpl; [lia |].
  destruct (Ascii.eqb c d); [lia |].
  destruct (PyStr.find c s =? -1); lia.
Qed.

Lemma rfind_ge c s : -1 <= PyStr.rfind c s.
Proof.
  induction s as [|d s IH]; simpl; [lia |].
  destruct (PyStr.rfind c s =? -1); [destruct (Ascii.eqb c d); lia | lia].
Qed.

Lemma find_cons_none c d s :
  PyStr.find c (String d s) = -1 -> Ascii.eqb c d = false /\ PyStr.find c s = -1.
Proof.
  simpl. pose proof (find_ge c s). destruct (Ascii.eqb c d); [discriminate |].
  destruct (PyStr.find c s =? -1) eqn:E; [apply Z.eqb_eq in E; auto | lia].
Qed.

Lemma rfind_none c s : PyStr.find c s = -1 -> PyStr.rfind c s = -1.
Proof.
  induction s as [|d s IH]; [reflexivity |]. intros H.
  apply find_cons_none in H as [Hd Hs]. simpl. by rewrite (IH Hs), Hd.
Qed.

Lemma find_app c pre rest :
  PyStr.find c pre = -1 ->
  PyStr.find c (pre +:+ String c rest) = Z.of_nat (String.length pre).
Proof.
  induction pre as [|d pre IH]; intros H.
  - simpl. by rewrite Ascii.eqb_refl.
  - apply find_cons_none in H as [Hd Hs].
    change (String d pre +:+ String c rest) with (String d (pre +:+ String c rest)).
    change (String.length (String d pre)) with (S (String.length pre)).
    simpl PyStr.find. rewrite Hd, (IH Hs).
    destruct (Z.of_nat (String.length pre) =? -1) eqn:E; [apply Z.eqb_eq in E |]; lia.
Qed.

Lemma rfind_app c s post :
  PyStr.find c post = -1 ->
  PyStr.rfind c (s +:+ String c post) = Z.of_nat (String.length s).
Proof.
  intros H. induction s as [|d s IH].
  - simpl. by rewrite (rfind_none _ _ H), Ascii.eqb_refl.
  - change (String d s +:+ String c post) with (String d (s +:+ String c post)).
    change (String.length (String d s)) with (S (String.length s)).
    simpl PyStr.rfind. rewrite IH.
    destruct (Z.of_nat (String.length s) =? -1) eqn:E; [apply Z.eqb_eq in E |]; lia.
Qed.

Lemma length_append a b :
  String.length (a +:+ b) = (String.length a + String.length b)%nat.
Proof. induction a as [|c a IH]; simpl; [reflexivity | by rewrite IH]. Qed.

Lemma append_assoc a b c : (a +:+ b) +:+ c = a +:+ (b +:+ c).
Proof.
  induction a as [|x a IH]; [reflexivity |].
  change (String x ((a +:+ b) +:+ c) = String x (a +:+ (b +:+ c))). by rewrite IH.
Qed.

Lemma substring_skip pre n s :
  substring (String.length pre) n (pre +:+ s) = substring 0 n s.
Proof. induction pre as [|c pre IH]; simpl; [reflexivity | exact IH]. Qed.

Lemma substring_prefix a b : substring 0 (String.length a) (a +:+ b) = a.
Proof.
  induction a as [|c a IH]; simpl; [by destruct b | by rewrite IH].
Qed.

Lemma substring_empty n s : substring n 0 s = "".
Proof.
  revert s. induction n as [|n IH]; intros [|c s]; simpl; auto.
Qed.

(** X7: a text that holds an array between commentary, with no opening
    bracket before it and no closing bracket after it, yields exactly
    the array, brackets included, whatever stands inside; and when the
    last closing bracket is not after the first opening one, the text
    between them is empty. *)
Theorem array_text_extracts :
  forall (pre mid post : string),
    PyStr.find "["%char pre = -1 ->
    PyStr.find "]"%char post = -1 ->
    array_start (pre +:+ String "[" (mid +:+ String "]" post))
    = Z.of_nat (String.length pre)
    /\ array_end (pre +:+ String "[" (mid +:+ String "]" post))
       = Z.of_nat (String.length pre) + Z.of_nat (String.length mid) + 2
    /\ array_text (pre +:+ String "[" (mid +:+ String "]" post))
       = String "[" (mid +:+ "]")
    /\ (forall text, array_end text <= array_start text -> array_text text = "").
Proof.
  intros pre mid post Hpre Hpost.
  assert (Hs : array_start (pre +:+ String "[" (mid +:+ String "]" post))
               = Z.of_nat (String.length pre)) by (by apply find_app).
  assert (He : array_end (pre +:+ String "[" (mid +:+ String "]" post))
               = Z.of_nat (String.length pre) + Z.of_nat (String.length mid) + 2).
  { unfold array_end.
    replace (pre +:+ String "[" (mid +:+ String "]" post))
      with ((pre +:+ String "[" mid) +:+ String "]" post).
    - rewrite (rfind_app _ _ _ Hpost), length_append. simpl. lia.
    - apply append_assoc. }
  split; [exact Hs |]. split; [exact He |]. split.
  - unfold array_text, PyStr.slice. rewrite Hs, He, Nat2Z.id.
    replace (Z.to_nat (Z.of_nat (String.length pre) + Z.of_nat (String.length mid) + 2
                       - Z.of_nat (String.length pre)))
      with (String.length (String "[" (mid +:+ "]")))
      by (simpl; rewrite length_append; simpl; lia).
    rewrite substring_skip.
    replace (String "[" (mid +:+ String "]" post))
      with (String "[" (mid +:+ "]") +:+ post).
    + apply substring_prefix.
    + exact (append_assoc (String "[" mid) "]" post).
  - intros text H. unfold array_text, PyStr.slice.
    replace (Z.to_nat (array_end text - array_start text)) with 0%nat by lia.
    apply substring_empty.
Qed.

Lemma array_text_extracts_witness :
  array_text "Sure, here it is: [[1, 2], [3]] Enjoy!" = "[[1, 2], [3]]"
  /\ array_text "closed ] before [ opened" = "".
Proof.
  split.
  - exact (proj1 (proj2 (proj2 (array_text_extracts "Sure, here it is: "
                                  "[1, 2], [3]" " Enjoy!" eq_refl eq_refl)))).
  - apply (proj2 (proj2 (proj2 (array_text_extracts "" "" "" eq_refl eq_refl)))).
    vm_compute. discriminate.
Defined.

(** ** The study plan generator *)

Lemma array_end_nonneg text : 0 <= array_end text.
Proof. unfold array_end. pose proof (rfind_ge "]"%char text). lia. Qed.

(** Everything [generate_ai_study_plan] can do to the globals: it logs
    at most one prompt. *)
Lemma generate_ai_study_plan_effect client json_loads exam subjects weeks hours g :
  ai_cache (snd (generate_ai_study_plan client json_loads exam subjects weeks hours g))
  = ai_cache g
  /\ ai_cache_json (snd (generate_ai_study_plan client json_loads exam subjects weeks
                           hours g))
     = ai_cache_json g
  /\ study_schedules (snd (generate_ai_study_plan client json_loads exam subjects weeks
                             hours g))
     = study_schedules g
  /\ study_schedules_json (snd (generate_ai_study_plan client json_loads exam subjects
                                  weeks hours g))
     = study_schedules_json g
  /\ (gen_log (snd (generate_ai_study_plan client json_loads exam subjects weeks hours g))
      = gen_log g
      \/ gen_log (snd (generate_ai_study_plan client json_loads exam subjects weeks
                         hours g))
         = gen_log g ++ [study_plan_prompt exam subjects weeks hours]).
Proof.
  unfold generate_ai_study_plan. destruct client as [c|]; [| simpl; auto 6].
  unfold study_plan_try, generate_content.
  match goal with |- context [exc_bind ?a ?b] => destruct (exc_bind a b) end;
    simpl; auto 6.
Qed.

(** X8: whenever the client is missing, its call raises, its response
    has no text, the text has no opening or no closing bracket, or the
    text between the brackets is not JSON, [generate_ai_study_plan]
    returns [None] and raises nothing. *)
Theorem generate_ai_study_plan_failure :
  forall (client : option gemini) (json_loads : string -> exc json)
         (exam : option string) (subjects : list string) (weeks hours : Z) (g : Globals),
    study_plan_failure client json_loads (study_plan_prompt exam subjects weeks hours) g ->
    fst (generate_ai_study_plan client json_loads exam subjects weeks hours g) = JNull.
Proof.
  intros client json_loads exam subjects weeks hours g H.
  unfold generate_ai_study_plan, study_plan_try, stripped_text.
  destruct H as [-> | c e -> Hr | c -> Hr | c text -> Hr Hb | c text e -> Hr Hj];
    try reflexivity; simpl; rewrite Hr; simpl; try reflexivity.
  - destruct Hb as [-> | ->]; simpl; [reflexivity |].
    by destruct (array_start (PyStr.strip text) =? -1).
  - destruct (negb (array_start (PyStr.strip text) =? -1)
              && (0 <? array_end (PyStr.strip text))); [| reflexivity].
    by rewrite Hj.
Qed.

Lemma generate_ai_study_plan_failure_witness :
  fst (generate_ai_study_plan (Some (answering "No plan today.")) no_json (Some "GATE")
         ["Algorithms"] 24 4 fresh) = JNull.
Proof.
  apply generate_ai_study_plan_failure.
  apply (PlanNoArray _ _ _ _ (answering "No plan today.") "No plan today.");
    [reflexivity | reflexivity | left; vm_compute; reflexivity].
Defined.

(** X9: when the text of the client has an opening and a closing
    bracket and the text between them parses, [generate_ai_study_plan]
    returns the parsed value as it is, with no check of what it holds;
    the cache, the schedules and the two files are untouched and the
    plan prompt is the one prompt sent. *)
Theorem generate_ai_study_plan_returns_parsed :
  forall (c : gemini) (json_loads : string -> exc json) (exam : option string)
         (subjects : list string) (weeks hours : Z) (text : string) (v : json)
         (g : Globals),
    c (gen_log g) (study_plan_prompt exam subjects weeks hours) = Ret (Some text) ->
    array_start (PyStr.strip text) <> -1 ->
    array_end (PyStr.strip text) <> 0 ->
    json_loads (array_text (PyStr.strip text)) = Ret v ->
    generate_ai_study_plan (Some c) json_loads exam subjects weeks hours g
    = (v, {| ai_cache := ai_cache g; ai_cache_json := ai_cache_json g;
             cache_file_writable := cache_file_writable g;
             study_schedules := study_schedules g;
             study_schedules_json := study_schedules_json g;
             gen_log := gen_log g ++ [study_plan_prompt exam subjects weeks hours] |}).
Proof.
  intros c json_loads exam subjects weeks hours text v g Hr Hs He Hj.
  unfold generate_ai_study_plan, study_plan_try, stripped_text, generate_content.
  rewrite Hr. simpl.
  pose proof (array_end_nonneg (PyStr.strip text)) as H0.
  apply Z.eqb_neq in Hs. rewrite Hs.
  assert (Hlt : (0 <? array_end (PyStr.strip text)) = true) by (apply Z.ltb_lt; lia).
  rewrite Hlt. simpl. by rewrite Hj.
Qed.

Lemma generate_ai_study_plan_returns_parsed_witness :
  fst (generate_ai_study_plan (Some (answering "Here: [7] "))
         (loads_only "[7]" (JArr [JInt 7])) (Some "GATE") ["Algorithms"] 24 4 fresh)
  = JArr [JInt 7].
Proof.
  refine (f_equal fst (generate_ai_study_plan_returns_parsed
                         (answering "Here: [7] ") (loads_only "[7]" (JArr [JInt 7]))
                         (Some "GATE") ["Algorithms"] 24 4 "Here: [7] " (JArr [JInt 7])
                         fresh _ _ _ _));
    try (vm_compute; reflexivity); vm_compute; discriminate.
Defined.

(** ** [create_schedule] *)

Lemma to_int_raises s e : PyStr.to_int s = Raise e -> e = ValueError.
Proof.
  unfold PyStr.to_int. cbv zeta.
  match goal with |- match ?r with _ => _ end = _ -> _ => destruct r end;
    [destruct (_ <? _); [by intros [= <-] | discriminate] | by intros [= <-]].
Qed.

(** What [int] skips is no digit, so the digits of a text are those of
    the literal in it. *)
Lemma int_space_no_digit c : PyStr.is_int_space c = true -> PyStr.is_digit c = false.
Proof.
  unfold PyStr.is_int_space, PyStr.is_digit. cbv zeta. generalize (PyStr.code c).
  intros n H.
  destruct (Z.leb_spec 48 n); [| reflexivity].
  destruct (Z.leb_spec n 57); [| reflexivity].
  destruct (Z.leb_spec 9 n), (Z.leb_spec n 13), (Z.eqb_spec n 32), (Z.eqb_spec n 133),
    (Z.eqb_spec n 160); simpl in H; try discriminate; lia.
Qed.

Lemma count_digits_lstrip s :
  PyStr.count_digits (PyStr.lstrip_by PyStr.is_int_space s) = PyStr.count_digits s.
Proof.
  induction s as [|c s IH]; simpl; [reflexivity |].
  destruct (PyStr.is_int_space c) eqn:E; [| reflexivity].
  rewrite IH, (int_space_no_digit c E). lia.
Qed.

Lemma count_digits_rstrip s :
  PyStr.count_digits (PyStr.rstrip_by PyStr.is_int_space s) = PyStr.count_digits s.
Proof.
  induction s as [|c s IH]; simpl; [reflexivity |].
  destruct (PyStr.rstrip_by PyStr.is_int_space s) as [|d r] eqn:Er.
  - destruct (PyStr.is_int_space c) eqn:E; simpl.
    + rewrite <- IH, (int_space_no_digit c E). simpl. lia.
    + by rewrite <- IH.
  - change (PyStr.count_digits (String c (String d r)))
      with ((if PyStr.is_digit c then 1 else 0) + PyStr.count_digits (String d r)).
    by rewrite IH.
Qed.

(** A literal of more than 4300 digits is refused. *)
Lemma to_int_long s :
  PyStr.max_str_digits < PyStr.count_digits s -> PyStr.to_int s = Raise ValueError.
Proof.
  intros H. unfold PyStr.to_int. cbv zeta.
  rewrite count_digits_rstrip, count_digits_lstrip.
  apply Z.ltb_lt in H. rewrite H.
  match goal with |- match ?r with _ => _ end = _ => by destruct r end.
Qed.

Lemma form_int_raises field dflt e :
  form_int field dflt = Raise e ->
  e = ValueError /\ exists s, field = Some s /\ PyStr.to_int s = Raise ValueError.
Proof.
  destruct field as [s|]; simpl; [| discriminate]. intros H.
  pose proof (to_int_raises _ _ H) as ->. eauto.
Qed.

(** [create_schedule] raises only while it reads the two numbers. *)
Lemma create_schedule_raise client json_loads now f g e g' :
  create_schedule client json_loads now f g = (Raise e, g') ->
  e = ValueError /\ g' = g
  /\ ((exists s, form_weeks f = Some s /\ PyStr.to_int s = Raise ValueError)
      \/ (exists s, form_hours_per_day f = Some s /\ PyStr.to_int s = Raise ValueError)).
Proof.
  unfold create_schedule.
  destruct (form_int (form_weeks f) 12) as [w|e1] eqn:Hw.
  - destruct (form_int (form_hours_per_day f) 4) as [h|e2] eqn:Hh.
    + destruct (schedule_name_and_subjects _ _ _) as [nm subj].
      destruct (generate_ai_study_plan _ _ _ _ _ _ _) as [plan g1]. discriminate.
    + intros [= <- <-]. apply form_int_raises in Hh as [-> Hh]. auto.
  - intros [= <- <-]. apply form_int_raises in Hw as [-> Hw]. auto.
Qed.

(** X10: [create_schedule] raises [ValueError] with nothing stored,
    written or sent to the client exactly when a posted weeks or hours
    field is refused by [int]; a field of more than 4300 digits is
    refused; and when neither field is posted the defaults are taken
    and the handler returns. *)
Theorem create_schedule_bad_number :
  forall (client : option gemini) (json_loads : string -> exc json)
         (now : PyDate.clock) (f : form) (g : Globals),
    (create_schedule client json_loads now f g = (Raise ValueError, g)
     <-> (exists s, form_weeks f = Some s /\ PyStr.to_int s = Raise ValueError)
         \/ (exists s, form_hours_per_day f = Some s
                       /\ PyStr.to_int s = Raise ValueError))
    /\ (forall s, PyStr.max_str_digits < PyStr.count_digits s ->
                  PyStr.to_int s = Raise ValueError)
    /\ (form_weeks f = None -> form_hours_per_day f = None ->
        exists r g', create_schedule client json_loads now f g = (Ret r, g')).
Proof.
  intros client json_loads now f g. split; [split | split].
  - intros H. by apply create_schedule_raise in H as (_ & _ & H).
  - unfold create_schedule. intros [(s & Hs & E) | (s & Hs & E)].
    + rewrite Hs. simpl. by rewrite E.
    + destruct (form_int (form_weeks f) 12) as [w|e] eqn:Hw.
      * rewrite Hs. simpl. by rewrite E.
      * by apply form_int_raises in Hw as [-> _].
  - apply to_int_long.
  - intros Hw Hh.
    destruct (create_schedule client json_loads now f g) as [[r|e] g'] eqn:Hc; [eauto |].
    apply create_schedule_raise in Hc as (_ & _ & [(s & Hs & _) | (s & Hs & _)]);
      congruence.
Qed.

(** Every preset has a name. *)
Lemma presets_named :
  map_Forall (fun _ p => PyStr.truthy (preset_name p) = true) EXAM_PRESETS.
Proof. refine (bool_decide_eq_true_1 _ _); vm_compute; reflexivity. Qed.

Lemma schedule_name_nonempty exam custom_name subjects :
  fst (schedule_name_and_subjects exam custom_name subjects) <> "".
Proof.
  assert (H : (if PyStr.truthy custom_name then custom_name else "Custom Study Plan")
              <> "") by (by destruct custom_name).
  unfold schedule_name_and_subjects. destruct exam as [e|]; [| exact H].
  destruct (EXAM_PRESETS !! e) as [p|] eqn:Hp; [| exact H].
  destruct (negb (String.eqb e "Custom")); [| exact H]. simpl.
  pose proof (presets_named e p Hp) as Hn. simpl in Hn. by destruct (preset_name p).
Qed.

Lemma schedule_subjects_posted exam custom_name subjects :
  subjects <> [] ->
  snd (schedule_name_and_subjects exam custom_name subjects) = subjects.
Proof.
  intros H. unfold schedule_name_and_subjects. destruct exam as [e|]; [| reflexivity].
  destruct (EXAM_PRESETS !! e) as [p|]; [| reflexivity].
  destruct (negb (String.eqb e "Custom")); [| reflexivity].
  by destruct subjects.
Qed.

(** X11: what a successful [create_schedule] stores.  One record is
    appended, the records before it are untouched, and the schedule file
    holds the new list; the cache is untouched.  The record has the next
    position as id, a name that is never empty, the posted exam type,
    numbers and (when some are posted) subjects, today as creation date,
    the posted start date or today, the status active, no week and no
    progress yet; its plan is the one generated for its own exam type,
    subjects, weeks and hours, and is stored only when it is truthy. *)
Theorem create_schedule_record :
  forall (client : option gemini) (json_loads : string -> exc json)
         (now : PyDate.clock) (f : form) (g g' : Globals) (r : reply),
    create_schedule client json_loads now f g = (Ret r, g') ->
    exists s,
      study_schedules g' = study_schedules g ++ [s]
      /\ study_schedules_json g' = Some (study_schedules g ++ [s])
      /\ ai_cache g' = ai_cache g /\ ai_cache_json g' = ai_cache_json g
      /\ r = RedirectToView (id s)
      /\ id s = Z.of_nat (length (study_schedules g)) + 1
      /\ name s <> ""
      /\ exam_type s = form_exam_type f
      /\ form_int (form_weeks f) 12 = Ret (weeks s)
      /\ form_int (form_hours_per_day f) 4 = Ret (hours_per_day s)
      /\ (form_subjects f <> [] -> subjects s = form_subjects f)
      /\ created_date s = PyDate.today_str now
      /\ start_date s = default (PyDate.today_str now) (form_start_date f)
      /\ status s = "active"
      /\ current_week s = None /\ progress s = None
      /\ ai_plan s
         = (if truthy (fst (generate_ai_study_plan client json_loads (exam_type s)
                              (subjects s) (weeks s) (hours_per_day s) g))
            then Some (fst (generate_ai_study_plan client json_loads (exam_type s)
                              (subjects s) (weeks s) (hours_per_day s) g))
            else None).
Proof.
  intros client json_loads now f g g' r. unfold create_schedule.
  destruct (form_int (form_weeks f) 12) as [w|] eqn:Hw; [| discriminate].
  destruct (form_int (form_hours_per_day f) 4) as [h|] eqn:Hh; [| discriminate].
  pose proof (schedule_name_nonempty (form_exam_type f) (default "" (form_custom_name f))
                (form_subjects f)) as Hn.
  pose proof (schedule_subjects_posted (form_exam_type f)
                (default "" (form_custom_name f)) (form_subjects f)) as Hsub.
  destruct (schedule_name_and_subjects _ _ _) as [nm subj]. simpl in Hn, Hsub.
  pose proof (generate_ai_study_plan_effect client json_loads (form_exam_type f) subj
                w h g) as (Hc & Hcj & Hl & _ & _).
  destruct (generate_ai_study_plan _ _ _ _ _ _ _) as [plan g1] eqn:Hp.
  simpl in Hc, Hcj, Hl.
  intros [= <- <-]. eexists. split; [simpl; rewrite Hl; reflexivity |].
  destruct (truthy plan) eqn:Ht; simpl; rewrite ?Hl; repeat split; auto;
    rewrite Hp; simpl; by rewrite Ht.
Qed.

Lemma create_schedule_record_witness :
  exists s, study_schedules one_schedule = [s] /\ name s <> "" /\ ai_plan s = None.
Proof.
  destruct (create_schedule_record None no_json now0 (form_of "GATE" "24" "2026-11-03")
              fresh one_schedule (RedirectToView 1) ltac:(vm_compute; reflexivity))
    as (s & H1 & _ & _ & _ & _ & _ & H2 & _ & _ & _ & _ & _ & _ & _ & _ & _ & H3).
  exists s. repeat split; assumption.
Defined.

(** *** Ids without deletions *)

Lemma run_creates_sequential_aux client json_loads requests :
  forall g,
    sequential_ids (study_schedules g) ->
    sequential_ids (study_schedules (run_creates client json_loads requests g))
    /\ (length (study_schedules g)
        <= length (study_schedules (run_creates client json_loads requests g))
        <= length (study_schedules g) + length requests)%nat.
Proof.
  induction requests as [|[now f] rest IH]; intros g Hg; simpl; [split; [exact Hg | lia] |].
  destruct (create_schedule client json_loads now f g) as [[r|e] g'] eqn:Hc.
  - destruct (create_schedule_sequential _ _ _ _ _ _ _ Hg Hc) as [Hs _].
    destruct (create_schedule_id _ _ _ _ _ _ _ Hc) as (s & Hl & _).
    destruct (IH g' Hs) as [H1 H2]. simpl. split; [exact H1 |].
    rewrite Hl, length_app in H2. simpl in H2. lia.
  - apply create_schedule_raise in Hc as (_ & -> & _).
    destruct (IH g Hg) as [H1 H2]. simpl. split; [exact H1 | lia].
Qed.

(** X12: as long as nothing is deleted, the ids are the positions: from
    a store whose ids are 1, 2, ... in order (an empty one, for
    instance), any sequence of creation requests, failing ones included,
    leads to a store whose ids are 1, 2, ... in order, hence pairwise
    distinct, with at most one more record per request. *)
Theorem run_creates_sequential :
  forall (client : option gemini) (json_loads : string -> exc json)
         (requests : list (PyDate.clock * form)) (g : Globals),
    sequential_ids (study_schedules g) ->
    sequential_ids (study_schedules (run_creates client json_loads requests g))
    /\ NoDup (map id (study_schedules (run_creates client json_loads requests g)))
    /\ (length (study_schedules (run_creates client json_loads requests g))
        <= length (study_schedules g) + length requests)%nat.
Proof.
  intros client json_loads requests g Hg.
  destruct (run_creates_sequential_aux client json_loads requests g Hg) as [H1 H2].
  split; [exact H1 |]. split; [| lia].
  unfold sequential_ids in H1. rewrite H1.
  apply NoDup_fmap_2; [intros x y; lia | apply NoDup_ListNoDup, seq_NoDup].
Qed.

Lemma run_creates_sequential_witness :
  map id (study_schedules
            (run_creates None no_json
               [(now0, form_of "GATE" "24" "2026-11-03");
                (now0, form_of "JEE" "many" "2026-11-03");
                (now0, form_of "NEET" "48" "2026-11-03")] fresh))
  = [1; 2].
Proof.
  rewrite (proj1 (run_creates_sequential None no_json
                    [(now0, form_of "GATE" "24" "2026-11-03");
                     (now0, form_of "JEE" "many" "2026-11-03");
                     (now0, form_of "NEET" "48" "2026-11-03")] fresh eq_refl)).
  vm_compute. reflexivity.
Defined.

(** *** The redirect after a creation *)

Lemma find_schedule_none schedule_id l :
  find_schedule schedule_id l = None <-> matching schedule_id l = [].
Proof.
  unfold matching. induction l as [|s l IH]; simpl; [done |].
  destruct (id s =? schedule_id); [done |].
  destruct (find_schedule schedule_id l) as [[i s']|]; split; try done.
  - intros H. apply IH in H. discriminate.
  - intros _. by apply IH.
Qed.

Lemma find_schedule_app schedule_id l s :
  find_schedule schedule_id (l ++ [s])
  = match find_schedule schedule_id l with
    | Some found => Some found
    | None => if id s =? schedule_id then Some (length l, s) else None
    end.
Proof.
  induction l as [|s0 l IH]; simpl.
  - by destruct (id s =? schedule_id).
  - destruct (id s0 =? schedule_id); [reflexivity |]. rewrite IH.
    destruct (find_schedule schedule_id l) as [[i s']|]; [reflexivity |].
    by destruct (id s =? schedule_id).
Qed.

(** X13: the redirect after a creation names the id of the new record.
    When no older record has that id, looking it up finds the new
    record, at the end of the list; when an older record has it (ids
    are reused after a deletion), the lookup finds the older record at
    its old position and the new one cannot be reached by its id. *)
Theorem create_schedule_redirect_target :
  forall (client : option gemini) (json_loads : string -> exc json)
         (now : PyDate.clock) (f : form) (g g' : Globals) (k : Z),
    create_schedule client json_loads now f g = (Ret (RedirectToView k), g') ->
    (matching k (study_schedules g) = [] ->
     exists s,
       study_schedules g' = study_schedules g ++ [s]
       /\ find_schedule k (study_schedules g')
          = Some (length (study_schedules g), s))
    /\ (forall i s,
          find_schedule k (study_schedules g) = Some (i, s) ->
          find_schedule k (study_schedules g') = Some (i, s)
          /\ (i < length (study_schedules g))%nat).
Proof.
  intros client json_loads now f g g' k Hc.
  destruct (create_schedule_id _ _ _ _ _ _ _ Hc) as (s & Hl & Hid & [= ->] & _).
  split.
  - intros Hm. exists s. split; [exact Hl |].
    apply find_schedule_none in Hm. by rewrite Hl, find_schedule_app, Hm, Z.eqb_refl.
  - intros i s0 Hf. split; [by rewrite Hl, find_schedule_app, Hf |].
    apply find_schedule_lookup in Hf as [Hf _]. by eapply lookup_lt_Some.
Qed.

Lemma create_schedule_redirect_target_witness :
  exists s, find_schedule 1 (study_schedules one_schedule) = Some (0%nat, s).
Proof.
  destruct (proj1 (create_schedule_redirect_target None no_json now0
                     (form_of "GATE" "24" "2026-11-03") fresh one_schedule 1
                     ltac:(vm_compute; reflexivity)) eq_refl) as (s & _ & H).
  exists s. exact H.
Defined.

(** ** [delete_schedule] and [view_schedule] together *)

Lemma matching_after_filter schedule_id l :
  matching schedule_id (List.filter (fun s => negb (id s =? schedule_id)) l) = [].
Proof.
  unfold matching. induction l as [|s l IH]; simpl; [reflexivity |].
  destruct (id s =? schedule_id) eqn:E; simpl; [exact IH | by rewrite E].
Qed.

Lemma find_schedule_filter other schedule_id l :
  schedule_id <> other ->
  option_map snd
    (find_schedule schedule_id (List.filter (fun s => negb (id s =? other)) l))
  = option_map snd (find_schedule schedule_id l).
Proof.
  intros Hne. induction l as [|s l IH]; simpl; [reflexivity |].
  destruct (id s =? other) eqn:Eo; simpl.
  - apply Z.eqb_eq in Eo.
    destruct (id s =? schedule_id) eqn:Ek; [apply Z.eqb_eq in Ek; lia |].
    rewrite IH. by destruct (find_schedule schedule_id l) as [[j s']|].
  - destruct (id s =? schedule_id); [reflexivity |].
    destruct (find_schedule schedule_id (List.filter _ l)) as [[j s']|];
      destruct (find_schedule schedule_id l) as [[j' s'']|]; simpl in *; congruence.
Qed.

(** What [view_schedule] answers depends on the record found only, not
    on its position. *)
Lemma view_schedule_reply now schedule_id g :
  fst (view_schedule now schedule_id g)
  = match option_map snd (find_schedule schedule_id (study_schedules g)) with
    | None => Ret NotFound404
    | Some s =>
        start <-! PyDate.strptime (start_date s) ;;
        p0 <-! progress_of (week_of (days_elapsed now start) (weeks s)) (weeks s) ;;
        p <-! round_progress p0 ;;
        Ret (RenderSchedule
               (set_progress p
                  (set_current_week (week_of (days_elapsed now start) (weeks s)) s)))
    end.
Proof.
  unfold view_schedule.
  destruct (find_schedule schedule_id (study_schedules g)) as [[i s]|]; [| reflexivity].
  simpl. destruct (PyDate.strptime (start_date s)) as [start|]; [| reflexivity].
  simpl. destruct (progress_of _ (weeks s)) as [p0|]; [| reflexivity].
  simpl. by destruct (round_progress p0).
Qed.

(** X14: a deleted id is gone: viewing it right after the deletion is
    answered with 404 and changes nothing, whatever the store held
    (also when several records had the id); and the deletion changes
    the answer to no other id. *)
Theorem delete_schedule_then_view :
  forall (now : PyDate.clock) (schedule_id : Z) (g : Globals),
    view_schedule now schedule_id (snd (delete_schedule schedule_id g))
    = (Ret NotFound404, snd (delete_schedule schedule_id g))
    /\ (forall other, other <> schedule_id ->
        fst (view_schedule now other (snd (delete_schedule schedule_id g)))
        = fst (view_schedule now other g)).
Proof.
  intros now schedule_id g. split.
  - apply view_schedule_not_found. simpl. apply matching_after_filter.
  - intros other Hne. rewrite !view_schedule_reply. simpl.
    by rewrite (find_schedule_filter schedule_id other _ Hne).
Qed.

Lemma filter_twice {A} (p q : A -> bool) l :
  List.filter p (List.filter q l) = List.filter q (List.filter p l).
Proof.
  induction l as [|x l IH]; simpl; [reflexivity |].
  destruct (p x) eqn:Ep, (q x) eqn:Eq; simpl; rewrite ?Ep, ?Eq, ?IH; reflexivity.
Qed.

Lemma filter_again {A} (p : A -> bool) l :
  List.filter p (List.filter p l) = List.filter p l.
Proof.
  induction l as [|x l IH]; simpl; [reflexivity |].
  destruct (p x) eqn:Ep; simpl; rewrite ?Ep, ?IH; reflexivity.
Qed.

(** X15: deleting the same id twice is deleting it once, and two
    deletions can be swapped: the store and the schedule file end up
    the same. *)
Theorem delete_schedule_idempotent_commutes :
  forall (a b : Z) (g : Globals),
    snd (delete_schedule a (snd (delete_schedule a g))) = snd (delete_schedule a g)
    /\ snd (delete_schedule a (snd (delete_schedule b g)))
       = snd (delete_schedule b (snd (delete_schedule a g))).
Proof.
  intros a b g. unfold delete_schedule, save_schedules, with_schedules. simpl. split.
  - by rewrite filter_again.
  - by rewrite (filter_twice (fun s => negb (id s =? a)) (fun s => negb (id s =? b))).
Qed.

(** *** Viewing again *)

Lemma find_schedule_insert schedule_id l i s s' :
  find_schedule schedule_id l = Some (i, s) ->
  id s' = id s ->
  find_schedule schedule_id (<[i := s']> l) = Some (i, s').
Proof.
  intros Hf Hid. revert i Hf. induction l as [|s0 l IH]; intros i; simpl; [discriminate |].
  destruct (id s0 =? schedule_id) eqn:E.
  - intros [= <- <-]. simpl. by rewrite Hid, E.
  - destruct (find_schedule schedule_id l) as [[j s1]|] eqn:Hj; [| discriminate].
    intros [= <- <-]. simpl. by rewrite E, (IH j eq_refl).
Qed.

(** X16: viewing a schedule a second time at the same day gives the
    same page and changes nothing any more: the week and the progress
    written by the first view are the ones the second view computes. *)
Theorem view_schedule_idempotent :
  forall (now : PyDate.clock) (schedule_id : Z) (g g' : Globals) (r : reply),
    view_schedule now schedule_id g = (Ret r, g') ->
    view_schedule now schedule_id g' = (Ret r, g').
Proof.
  intros now schedule_id g g' r Hv.
  destruct (find_schedule schedule_id (study_schedules g)) as [[i s]|] eqn:Hf.
  - destruct (view_schedule_found _ _ _ _ _ _ _ Hf Hv)
      as (start & p0 & p & Hs & Hp0 & Hp & -> & ->).
    set (w := week_of (days_elapsed now start) (weeks s)) in *.
    unfold view_schedule. cbn [with_schedules study_schedules].
    rewrite (find_schedule_insert schedule_id (study_schedules g) i s
               (set_progress p (set_current_week w s)) Hf eq_refl).
    cbn [start_date weeks set_progress set_current_week].
    rewrite Hs. fold w. rewrite Hp0, Hp.
    unfold with_schedules, set_progress, set_current_week. simpl.
    by rewrite !list_insert_insert_eq.
  - unfold view_schedule in Hv. rewrite Hf in Hv. injection Hv as <- <-.
    unfold view_schedule. by rewrite Hf.
Qed.

Lemma view_schedule_idempotent_witness :
  view_schedule now0 1 after_view = (Ret (RenderSchedule gate_viewed), after_view).
Proof.
  apply (view_schedule_idempotent now0 1 one_schedule after_view
           (RenderSchedule gate_viewed)).
  vm_compute. reflexivity.
Defined.

(** X17: the week never goes back as the days pass: of two successful
    views of a schedule, the later one shows a week that is at least
    the week of the earlier one. *)
Theorem view_schedule_week_monotone :
  forall (now now' : PyDate.clock) (schedule_id : Z) (g g1 g2 : Globals)
         (s1 s2 : schedule),
    PyDate.today now <= PyDate.today now' ->
    view_schedule now schedule_id g = (Ret (RenderSchedule s1), g1) ->
    view_schedule now' schedule_id g1 = (Ret (RenderSchedule s2), g2) ->
    exists w1 w2,
      current_week s1 = Some w1 /\ current_week s2 = Some w2 /\ w1 <= w2.
Proof.
  intros now now' schedule_id g g1 g2 s1 s2 Hle Hv1 Hv2.
  destruct (find_schedule schedule_id (study_schedules g)) as [[i s]|] eqn:Hf;
    [| unfold view_schedule in Hv1; rewrite Hf in Hv1; discriminate].
  destruct (view_schedule_found _ _ _ _ _ _ _ Hf Hv1)
    as (start & p0 & p & Hs & _ & _ & [= ->] & ->).
  pose proof (find_schedule_insert schedule_id (study_schedules g) i s
                (set_progress p
                   (set_current_week (week_of (days_elapsed now start) (weeks s)) s))
                Hf eq_refl) as Hf'.
  destruct (view_schedule_found now' schedule_id (with_schedules _ g) _ _ _ _ Hf' Hv2)
    as (start' & _ & p' & Hs' & _ & _ & [= ->] & _).
  cbn [start_date weeks set_progress set_current_week] in Hs'.
  rewrite Hs in Hs'. injection Hs' as <-.
  eexists _, _. split; [reflexivity |]. split; [reflexivity |].
  cbn [weeks set_progress set_current_week]. unfold week_of, days_elapsed.
  assert ((PyDate.today now - start) / 7 <= (PyDate.today now' - start) / 7)
    by (apply Z.div_le_mono; lia).
  lia.
Qed.

Lemma view_schedule_week_monotone_witness :
  exists w1 w2,
    current_week gate_viewed = Some w1
    /\ current_week (set_progress (PFloat (PyFloat.Finite false 4672484613396890 (-49)))
                       (set_current_week 2 gate_viewed)) = Some w2
    /\ w1 <= w2.
Proof.
  refine (view_schedule_week_monotone now0
            {| PyDate.today := 739930; PyDate.today_str := "2026-11-10" |}
            1 one_schedule after_view _ gate_viewed _ _ _ _);
    [vm_compute; discriminate | vm_compute; reflexivity | vm_compute; reflexivity].
Defined.

(** *** The week and the progress shown *)

Lemma rne_div_exact n k : 0 < n -> PyFloat.rne_div (n * k) n = k.
Proof.
  intros Hn. unfold PyFloat.rne_div. cbv zeta.
  rewrite (Z.mul_comm n k), Z.div_mul, Z.mod_mul by lia.
  destruct (2 * 0 <? n) eqn:E; [reflexivity | apply Z.ltb_ge in E; lia].
Qed.

(** [n / n] is 1.0, whatever the size of [n]. *)
Lemma round_pos_self n : 0 < n -> PyFloat.round_pos n n = Some (2 ^ 52, -52).
Proof.
  intros Hn. unfold PyFloat.round_pos. cbv zeta.
  replace (Z.log2 n - Z.log2 n - 1) with (-1) by lia.
  change (-1 + 1) with 0. change (- 0) with 0. rewrite Z.leb_refl.
  change (Z.max (0 - 52) (-1074)) with (-52).
  unfold PyFloat.shl. change (Z.max (- -52) 0) with 52. change (Z.max (-52) 0) with 0.
  change (2 ^ 0) with 1. rewrite Z.mul_1_r, (rne_div_exact n (2 ^ 52) Hn).
  reflexivity.
Qed.

Lemma true_div_self w : w <> 0 -> PyFloat.true_div w w = Ret float_1.
Proof.
  intros Hw. unfold PyFloat.true_div.
  destruct (w =? 0) eqn:E; [apply Z.eqb_eq in E; contradiction |].
  by rewrite xorb_nilpotent, round_pos_self by lia.
Qed.

Lemma progress_complete w :
  w <> 0 ->
  progress_of w w = Ret (PFloat float_100)
  /\ round_progress (PFloat float_100) = Ret (PFloat float_100).
Proof.
  intros Hw. unfold progress_of. rewrite (true_div_self w Hw).
  split; vm_compute; reflexivity.
Qed.

(** X18: from the last week on, the page shows the number of weeks as
    the week and a progress of exactly 100.0: this is so whenever the
    stored weeks are not 0 and not above the week the days give, thus
    also for a negative number of weeks at any day. *)
Theorem view_schedule_completed :
  forall (now : PyDate.clock) (schedule_id : Z) (g : Globals) (i : nat)
         (s : schedule) (start : Z),
    find_schedule schedule_id (study_schedules g) = Some (i, s) ->
    PyDate.strptime (start_date s) = Ret start ->
    weeks s <> 0 ->
    weeks s <= (PyDate.today now - start) / 7 + 1 ->
    exists s' g',
      view_schedule now schedule_id g = (Ret (RenderSchedule s'), g')
      /\ study_schedules g' !! i = Some s'
      /\ current_week s' = Some (weeks s)
      /\ progress s' = Some (PFloat float_100).
Proof.
  intros now schedule_id g i s start Hf Hs Hw Hle.
  destruct (find_schedule_lookup _ _ _ _ Hf) as [Hi _].
  assert (Hlt : (i < length (study_schedules g))%nat) by (by eapply lookup_lt_Some).
  assert (E : week_of (days_elapsed now start) (weeks s) = weeks s)
    by (unfold week_of, days_elapsed; lia).
  destruct (progress_complete (weeks s) Hw) as [Hp0 Hp].
  unfold view_schedule. rewrite Hf, Hs. cbv zeta. rewrite E, Hp0.
  cbn [weeks set_current_week]. rewrite Hp.
  eexists _, _. split; [reflexivity |].
  split; [simpl; by rewrite list_lookup_insert_eq by (by rewrite length_insert) |].
  split; reflexivity.
Qed.

Lemma view_schedule_completed_witness :
  exists s' g',
    view_schedule {| PyDate.today := 740300; PyDate.today_str := "2027-11-15" |} 1
      one_schedule = (Ret (RenderSchedule s'), g')
    /\ current_week s' = Some 24
    /\ progress s' = Some (PFloat float_100).
Proof.
  destruct (view_schedule_completed
              {| PyDate.today := 740300; PyDate.today_str := "2027-11-15" |} 1
              one_schedule 0%nat gate_schedule 739923)
    as (s' & g' & H1 & _ & H2 & H3);
    [vm_compute; reflexivity | vm_compute; reflexivity | vm_compute; discriminate
    | vm_compute; discriminate |].
  exists s', g'. repeat split; assumption.
Defined.

Lemma at_least_finite m e : 0 <= m -> at_least (PFloat (PyFloat.Finite false m e)) 0.
Proof.
  intros H. unfold at_least, to_Q, QArith_base.Qle, QArith_base.inject_Z. simpl.
  pose proof (shl_nonneg m e H). lia.
Qed.

(** The progress of a week of at least 1 out of at least 1 week is not
    negative. *)
Lemma progress_nonneg w weeks p0 p :
  1 <= w -> 1 <= weeks ->
  progress_of w weeks = Ret p0 -> round_progress p0 = Ret p -> at_least p 0.
Proof.
  intros Hw Hweeks. unfold progress_of, PyFloat.true_div.
  destruct (weeks =? 0) eqn:E0; [apply Z.eqb_eq in E0; lia |].
  destruct (w =? 0) eqn:E1; [apply Z.eqb_eq in E1; lia |].
  assert (Ew : (w <? 0) = false) by (apply Z.ltb_ge; lia).
  assert (Eweeks : (weeks <? 0) = false) by (apply Z.ltb_ge; lia).
  rewrite Ew, Eweeks. cbn [xorb].
  destruct (PyFloat.round_pos (Z.abs w) (Z.abs weeks)) as [[m e]|] eqn:Hr;
    cbn [exc_bind]; [| discriminate].
  assert (Hm : 0 <= m)
    by (apply (round_pos_nonneg (Z.abs w) (Z.abs weeks) m e); [lia | lia | exact Hr]).
  destruct (PyFloat.mul_int (PyFloat.Finite false m e) 100) as [x|] eqn:Hx;
    cbn [exc_bind]; [| discriminate].
  intros [= <-].
  destruct (PyFloat.int_ltb 100 x) eqn:Hlt; [intros [= <-]; simpl; lia |].
  destruct (mul_int_100_cases _ _ _ _ Hm Hx) as [(m' & e' & -> & Hm') | ->];
    [| discriminate].
  unfold round_progress, PyFloat.round1.
  set (t := PyFloat.rne_div _ _).
  assert (Ht0 : 0 <= t).
  { apply rne_div_nonneg; [apply shl_nonneg; lia | apply shl_pos; lia]. }
  destruct (t =? 0).
  - intros [= <-]. apply at_least_finite. lia.
  - destruct (PyFloat.round_pos t 10) as [[m2 e2]|] eqn:Hr2; [| discriminate].
    intros [= <-]. apply at_least_finite.
    apply (round_pos_nonneg t 10 m2 e2); [lia | lia | exact Hr2].
Qed.

(** X19: for a stored schedule with at least one week whose start date
    is a date that is not in the future, [view_schedule] returns the
    page at every day of the calendar, with a week between 1 and the
    number of weeks and a progress between 0 and 100. *)
Theorem view_schedule_in_range :
  forall (now : PyDate.clock) (schedule_id : Z) (g : Globals) (i : nat)
         (s : schedule) (start : Z),
    find_schedule schedule_id (study_schedules g) = Some (i, s) ->
    PyDate.strptime (start_date s) = Ret start ->
    1 <= PyDate.today now <= 3652059 ->
    start <= PyDate.today now ->
    1 <= weeks s ->
    exists s' g' w p,
      view_schedule now schedule_id g = (Ret (RenderSchedule s'), g')
      /\ current_week s' = Some w /\ 1 <= w <= weeks s
      /\ progress s' = Some p /\ at_least p 0 /\ at_most p 100.
Proof.
  intros now schedule_id g i s start Hf Hs Hnow Hstart Hweeks.
  destruct (view_schedule_returns now schedule_id g i s start Hf Hs ltac:(lia) Hnow)
    as (s' & g' & Hv).
  destruct (view_schedule_found _ _ _ _ _ _ _ Hf Hv)
    as (start' & p0 & p & Hs' & Hp0 & Hp & [= ->] & ->).
  rewrite Hs in Hs'. injection Hs' as <-.
  destruct (week_of_bounds (days_elapsed now start) (weeks s)) as (_ & Hw1 & Hw2).
  assert (H1 : 1 <= week_of (days_elapsed now start) (weeks s))
    by (apply Hw2; unfold days_elapsed; lia).
  eexists _, _, _, p. split; [exact Hv |].
  split; [reflexivity |]. split; [lia |]. split; [reflexivity |]. split.
  - exact (progress_nonneg _ _ _ _ H1 Hweeks Hp0 Hp).
  - exact (progress_at_most _ _ _ _ Hp0 Hp).
Qed.

Lemma view_schedule_in_range_witness :
  exists s' g' w p,
    view_schedule now0 1 one_schedule = (Ret (RenderSchedule s'), g')
    /\ current_week s' = Some w /\ 1 <= w <= 24
    /\ progress s' = Some p /\ at_least p 0 /\ at_most p 100.
Proof.
  apply (view_schedule_in_range now0 1 one_schedule 0%nat gate_schedule 739923);
    try (vm_compute; reflexivity); vm_compute; intuition discriminate.
Defined.

(** ** The quiz page *)

Lemma grade_bounds fields l :
  forall i score r,
    grade fields i l score = Ret r -> score <= r <= score + Z.of_nat (length l).
Proof.
  induction l as [|q l IH]; intros i score r; simpl.
  - intros [= <-]. lia.
  - destruct q as [| | | | | |d]; try discriminate.
    intros H. apply IH in H.
    destruct (selected_is _ _); lia.
Qed.

Lemma iterate_raises v e : iterate v = Raise e -> e = TypeError.
Proof. destruct v; simpl; intros [= <-] || discriminate; reflexivity. Qed.

Lemma grade_raises fields l :
  forall i score e, grade fields i l score = Raise e -> e = AttributeError.
Proof.
  induction l as [|q l IH]; intros i score e; simpl; [discriminate |].
  destruct q as [| | | | | |d]; try (by intros [= <-]). apply IH.
Qed.

(** X20: grading a posted quiz changes nothing in the store and sends
    nothing to the client; a result it shows has a score between 0 and
    the number of questions; a payload that is not JSON is graded as a
    quiz of no questions, 0 out of 0; and it raises only for a payload
    that cannot be iterated ([TypeError]) or has an element that is not
    a [dict] ([AttributeError]). *)
Theorem ai_quiz_post_score :
  forall (client : option gemini) (json_loads : string -> exc json) (sub : string)
         (fields : string -> option string) (g : Globals),
    snd (ai_quiz client json_loads sub POST fields g) = g
    /\ (forall score total,
          fst (ai_quiz client json_loads sub POST fields g)
          = Ret (QuizResult score total) ->
          0 <= score <= total)
    /\ (forall mcqs, fst (ai_quiz client json_loads sub POST fields g)
                     <> Ret (QuizPage mcqs))
    /\ (forall e, json_loads (default "[]" (fields "mcqs_json")) = Raise e ->
                  fst (ai_quiz client json_loads sub POST fields g)
                  = Ret (QuizResult 0 0))
    /\ (forall e, fst (ai_quiz client json_loads sub POST fields g) = Raise e ->
                  e = TypeError \/ e = AttributeError).
Proof.
  intros client json_loads sub fields g. unfold ai_quiz. cbn [fst snd].
  split; [reflexivity |].
  set (mcqs := match json_loads _ with Ret v => v | Raise _ => JArr [] end).
  destruct (iterate mcqs) as [elements|e0] eqn:Hi; cbn [exc_bind].
  - destruct (grade fields 0 elements 0) as [score0|e1] eqn:Hg; cbn [exc_bind].
    + split; [| split; [| split]]; try discriminate.
      * intros score total [= <- <-]. apply grade_bounds in Hg. lia.
      * intros e He. subst mcqs. rewrite He in Hi. injection Hi as <-.
        simpl in Hg. by injection Hg as <-.
    + split; [| split; [| split]]; try discriminate.
      * intros e He. subst mcqs. rewrite He in Hi. injection Hi as <-. discriminate.
      * intros e [= <-]. right. by eapply grade_raises.
  - split; [| split; [| split]]; try discriminate.
    + intros e He. subst mcqs. rewrite He in Hi. discriminate.
    + intros e [= <-]. left. by eapply iterate_raises.
Qed.

Lemma grade_all fields l :
  forall (k : nat) score,
    (forall i q, l !! i = Some q ->
       exists d, q = JObj d
                 /\ selected_is (fields ("q" +:+ PyStr.of_int (Z.of_nat (k + i))))
                      (assoc "answer" d) = true) ->
    grade fields (Z.of_nat k) l score = Ret (score + Z.of_nat (length l)).
Proof.
  induction l as [|q l IH]; intros k score H; simpl; [f_equal; lia |].
  destruct (H 0%nat q eq_refl) as (d & -> & Hd). rewrite Nat.add_0_r in Hd.
  rewrite Hd. replace (Z.of_nat k + 1) with (Z.of_nat (S k)) by lia.
  rewrite IH; [f_equal; lia |].
  intros i q Hq. destruct (H (S i) q Hq) as (d' & -> & Hd').
  exists d'. split; [reflexivity |]. by rewrite Nat.add_succ_comm.
Qed.

(** X21: a posted quiz gets the full score, the number of its
    questions, when every question is a [dict] and, at its position
    [i], either the field [q<i>] holds its answer (a string), or the
    field is not posted and the question has no answer or a null
    one. *)
Theorem ai_quiz_full_score :
  forall (client : option gemini) (json_loads : string -> exc json) (sub : string)
         (fields : string -> option string) (g : Globals) (l : list json),
    json_loads (default "[]" (fields "mcqs_json")) = Ret (JArr l) ->
    (forall (i : nat) (q : json),
        l !! i = Some q ->
        exists d,
          q = JObj d
          /\ ((exists a, assoc "answer" d = Some (JStr a)
                         /\ fields ("q" +:+ PyStr.of_int (Z.of_nat i)) = Some a)
              \/ ((assoc "answer" d = None \/ assoc "answer" d = Some JNull)
                  /\ fields ("q" +:+ PyStr.of_int (Z.of_nat i)) = None))) ->
    ai_quiz client json_loads sub POST fields g
    = (Ret (QuizResult (Z.of_nat (length l)) (Z.of_nat (length l))), g).
Proof.
  intros client json_loads sub fields g l Hj H. unfold ai_quiz. rewrite Hj.
  cbn [iterate exc_bind].
  assert (E : grade fields 0 l 0 = Ret (0 + Z.of_nat (length l)));
    [apply (grade_all fields l 0 0) | by rewrite E].
  intros i q Hq. destruct (H i q Hq) as (d & -> & Hd). exists d. split; [reflexivity |].
  cbn [Nat.add].
  destruct Hd as [(a & -> & ->) | ([-> | ->] & ->)]; simpl; [apply String.eqb_refl | ..];
    reflexivity.
Qed.

Lemma ai_quiz_full_score_witness :
  ai_quiz None placeholder_loads "Math" POST all_option_a fresh
  = (Ret (QuizResult 5 5), fresh).
Proof.
  refine (ai_quiz_full_score None placeholder_loads "Math" all_option_a fresh
            (fallback_mcqs "Math" 5) _ _); [vm_compute; reflexivity |].
  intros i q Hq.
  do 5 (destruct i as [|i];
        [injection Hq as <-; eexists; split; [reflexivity |]; left;
         exists "Option A"; split; vm_compute; reflexivity |]).
  discriminate.
Defined.

(** What [generate_ai_mcqs] hands out, and what it leaves alone. *)
Lemma generate_ai_mcqs_effect client json_loads subject n difficulty g :
  ai_cache (snd (generate_ai_mcqs client json_loads subject n difficulty g)) = ai_cache g
  /\ ai_cache_json (snd (generate_ai_mcqs client json_loads subject n difficulty g))
     = ai_cache_json g
  /\ study_schedules (snd (generate_ai_mcqs client json_loads subject n difficulty g))
     = study_schedules g
  /\ study_schedules_json (snd (generate_ai_mcqs client json_loads subject n difficulty g))
     = study_schedules_json g.
Proof.
  unfold generate_ai_mcqs. destruct client as [c|]; [| simpl; auto].
  unfold mcqs_try, generate_content.
  match goal with |- context [exc_bind ?a ?b] => destruct (exc_bind a b) end;
    simpl; auto.
Qed.

Lemma generate_ai_mcqs_shape client json_loads subject n difficulty g :
  1 <= n ->
  fst (generate_ai_mcqs client json_loads subject n difficulty g) <> []
  /\ Forall well_formed_mcq
       (fst (generate_ai_mcqs client json_loads subject n difficulty g)).
Proof.
  intros Hn.
  destruct (generate_ai_mcqs_cases client json_loads subject n difficulty g)
    as [-> | [Hne Hv]].
  - split.
    + intros E. pose proof (fallback_length subject n ltac:(lia)) as Hl.
      rewrite E in Hl. simpl in Hl. lia.
    + unfold fallback_mcqs. apply Forall_forall. intros q Hq.
      apply list_elem_of_In, in_map_iff in Hq as (i & <- & _).
      apply valid_mcq_well_formed, sample_mcq_valid.
  - split; [exact Hne |].
    eapply Forall_impl; [exact Hv |]. intros q. apply valid_mcq_well_formed.
Qed.

(** X22: a GET of the quiz page never raises and always shows at least
    one question, each a [dict] with a question, four options and an
    answer among them, whatever the client does; without a client they
    are the five placeholders of the subject and nothing changes; the
    cache, the schedules and the two files are never touched. *)
Theorem ai_quiz_get_page :
  forall (client : option gemini) (json_loads : string -> exc json) (sub : string)
         (fields : string -> option string) (g : Globals),
    exists mcqs,
      fst (ai_quiz client json_loads sub GET fields g) = Ret (QuizPage mcqs)
      /\ mcqs <> [] /\ Forall well_formed_mcq mcqs
      /\ (client = None ->
          mcqs = fallback_mcqs sub 5
          /\ snd (ai_quiz client json_loads sub GET fields g) = g)
      /\ ai_cache (snd (ai_quiz client json_loads sub GET fields g)) = ai_cache g
      /\ ai_cache_json (snd (ai_quiz client json_loads sub GET fields g))
         = ai_cache_json g
      /\ study_schedules (snd (ai_quiz client json_loads sub GET fields g))
         = study_schedules g
      /\ study_schedules_json (snd (ai_quiz client json_loads sub GET fields g))
         = study_schedules_json g.
Proof.
  intros client json_loads sub fields g. unfold ai_quiz.
  pose proof (generate_ai_mcqs_shape client json_loads sub 5 "medium" g ltac:(lia))
    as [Hne Hwf].
  pose proof (generate_ai_mcqs_effect client json_loads sub 5 "medium" g)
    as (H1 & H2 & H3 & H4).
  assert (Hnone : client = None ->
                  generate_ai_mcqs client json_loads sub 5 "medium" g
                  = (fallback_mcqs sub 5, g)) by (by intros ->).
  destruct (generate_ai_mcqs client json_loads sub 5 "medium" g) as [mcqs g'].
  exists mcqs. simpl in *. split; [reflexivity |].
  split; [exact Hne |]. split; [exact Hwf |].
  split; [intros Hc; by injection (Hnone Hc) as -> -> |]. auto.
Qed.
